(** * htmlToSvg: a shallow embedding of [src/htmlToSvg.ts]

    The conversion pipeline of the repository (style value parsers, tree
    snapshotter, document emitter) is transcribed function by function.

    Modelling conventions.
    - A JavaScript string is a [string]: a sequence of 8-bit code units
      (the Latin-1 range of UTF-16).  Character classes of the regular
      expressions ([\s], [\d], [[a-z]] under the [i] flag) are restricted to
      that range accordingly.
    - A JavaScript number is a [num]: [NaN], the two infinities, or an exact
      rational.  Arithmetic is exact (no rounding to binary64, no signed
      zero); every division, comparison and special-value rule of the source
      is kept.
    - A thrown exception is the [Thrown] case of [Outcome].
    - The module-level [nodeCounter] is threaded explicitly; the mutable
      [RenderContext] is threaded through the emitter as a state.
    - A regular expression of the source becomes a recogniser that follows
      the pattern left to right; the doc comment of each recogniser quotes
      the pattern.
    - The live tree is a [DomNode]: each element carries what the source
      reads of it (rectangle, computed style, tag, id, class) and each text
      node the rectangle measured for each of its characters.
    - A property read on the icon table sees its own entries and what a
      plain object inherits from [Object.prototype].
    - What only the engine defines (the shortest numeral of a non-integer,
      [Math.cos], [Math.sin]) is a variable of the section [Emitter]. *)

From Stdlib Require Import List Sorted String Ascii Bool Arith NArith ZArith.
From Stdlib Require Import QArith Qabs Qround Lia Lqa.
Import ListNotations.
Open Scope string_scope.

(** ** Characters *)

Definition charCode (c : ascii) : N := N_of_ascii c.

Definition inRange (lo hi : N) (c : ascii) : bool :=
  ((lo <=? charCode c) && (charCode c <=? hi))%N.

(** [\d] *)
Definition isDigit (c : ascii) : bool := inRange 48 57 c.

(** [[a-z]] under the [i] flag *)
Definition isLetter (c : ascii) : bool := inRange 97 122 c || inRange 65 90 c.

(** [[0-9a-f]] under the [i] flag *)
Definition isHexDigit (c : ascii) : bool :=
  isDigit c || inRange 97 102 c || inRange 65 70 c.

(** [\s], and the characters removed by [String.prototype.trim]:
    TAB, LF, VT, FF, CR, SPACE and NBSP. *)
Definition isSpace (c : ascii) : bool :=
  inRange 9 13 c || (charCode c =? 32)%N || (charCode c =? 160)%N.

Definition lowerChar (c : ascii) : ascii :=
  if inRange 65 90 c || inRange 192 214 c || inRange 216 222 c
  then ascii_of_N (charCode c + 32) else c.

(** The double-quote character (code 34). *)
Definition doubleQuote : ascii := ascii_of_N 34.

Definition digitValue (c : ascii) : N :=
  if isDigit c then (charCode c - 48)%N
  else if inRange 97 122 c then (charCode c - 87)%N
  else if inRange 65 90 c then (charCode c - 55)%N
  else 99%N.

Definition isRadixDigit (radix : N) (c : ascii) : bool :=
  (digitValue c <? radix)%N.

(** ** Strings *)

Definition str (c : ascii) : string := String c EmptyString.

Fixpoint strMap (f : ascii -> ascii) (s : string) : string :=
  match s with
  | EmptyString => EmptyString
  | String c r => String (f c) (strMap f r)
  end.

Fixpoint strAll (p : ascii -> bool) (s : string) : bool :=
  match s with
  | EmptyString => true
  | String c r => p c && strAll p r
  end.

Fixpoint strRev_aux (s acc : string) : string :=
  match s with
  | EmptyString => acc
  | String c r => strRev_aux r (String c acc)
  end.

Definition strRev (s : string) : string := strRev_aux s EmptyString.

(** Longest prefix whose characters satisfy [p], and the remainder. *)
Fixpoint span (p : ascii -> bool) (s : string) : string * string :=
  match s with
  | EmptyString => (EmptyString, EmptyString)
  | String c r =>
      if p c then let '(a, b) := span p r in (String c a, b)
      else (EmptyString, s)
  end.

Fixpoint dropWhile (p : ascii -> bool) (s : string) : string :=
  match s with
  | EmptyString => EmptyString
  | String c r => if p c then dropWhile p r else s
  end.

Definition trimStart (s : string) : string := dropWhile isSpace s.

Definition trimEnd (s : string) : string := strRev (dropWhile isSpace (strRev s)).

(** [String.prototype.trim] *)
Definition trim (s : string) : string := trimEnd (trimStart s).

(** [String.prototype.toLowerCase] *)
Definition toLowerCase (s : string) : string := strMap lowerChar s.

(** [s.startsWith(p)] *)
Definition startsWith (p s : string) : bool := prefix p s.

(** [s.endsWith(p)] *)
Definition endsWith (p s : string) : bool := prefix (strRev p) (strRev s).

Fixpoint skipn_str (n : nat) (s : string) : string :=
  match n, s with
  | O, _ => s
  | S k, EmptyString => EmptyString
  | S k, String _ r => skipn_str k r
  end.

Fixpoint firstn_str (n : nat) (s : string) : string :=
  match n, s with
  | O, _ => EmptyString
  | S k, EmptyString => EmptyString
  | S k, String c r => String c (firstn_str k r)
  end.

(** [s.slice(a, b)] for non-negative [a], [b]. *)
Definition slice (a b : nat) (s : string) : string :=
  firstn_str (b - a) (skipn_str a s).

(** [s.slice(a)] *)
Definition sliceFrom (a : nat) (s : string) : string := skipn_str a s.

(** [s.slice(a, -1)] *)
Definition sliceDropLast (a : nat) (s : string) : string :=
  slice a (String.length s - 1) s.

(** [s.indexOf(p, from)]: [None] stands for [-1]. *)
Fixpoint indexOf_aux (p s : string) (pos : nat) : option nat :=
  if prefix p s then Some pos
  else match s with
       | EmptyString => None
       | String _ r => indexOf_aux p r (S pos)
       end.

Definition indexOfFrom (p : string) (from : nat) (s : string) : option nat :=
  indexOf_aux p (skipn_str from s) from.

Definition indexOf (p s : string) : option nat := indexOfFrom p 0 s.

(** [s.includes(p)] *)
Definition includes (p s : string) : bool :=
  match indexOf p s with Some _ => true | None => false end.

(** [s.split(sep)] for a one-character separator. *)
Fixpoint splitChar_aux (sep : ascii) (s buffer : string) : list string :=
  match s with
  | EmptyString => [strRev buffer]
  | String c r =>
      if Ascii.eqb c sep then strRev buffer :: splitChar_aux sep r EmptyString
      else splitChar_aux sep r (String c buffer)
  end.

Definition splitChar (sep : ascii) (s : string) : list string :=
  splitChar_aux sep s EmptyString.

(** [s.split('')] *)
Fixpoint chars (s : string) : list string :=
  match s with
  | EmptyString => []
  | String c r => str c :: chars r
  end.

(** [parts.join(sep)] *)
Definition join (sep : string) (parts : list string) : string :=
  String.concat sep parts.

(** [s.replace(/c/g, by)] for a one-character pattern. *)
Fixpoint replaceChar (c : ascii) (by_ : string) (s : string) : string :=
  match s with
  | EmptyString => EmptyString
  | String d r =>
      if Ascii.eqb d c then by_ ++ replaceChar c by_ r
      else String d (replaceChar c by_ r)
  end.

(** [s.replace(/[chars]/g, '')]: delete every character satisfying [p]. *)
Fixpoint removeChars (p : ascii -> bool) (s : string) : string :=
  match s with
  | EmptyString => EmptyString
  | String d r => if p d then removeChars p r else String d (removeChars p r)
  end.

(** [s.replace(/\s+/g, ' ')]: every maximal run of white space becomes one
    space. *)
Fixpoint collapseSpaces_aux (s : string) (inRun : bool) : string :=
  match s with
  | EmptyString => EmptyString
  | String c r =>
      if isSpace c
      then if inRun then collapseSpaces_aux r true
           else String " " (collapseSpaces_aux r true)
      else String c (collapseSpaces_aux r false)
  end.

Definition collapseSpaces (s : string) : string := collapseSpaces_aux s false.

(** [s.split(/p+/)]: split at the maximal runs of characters in [p]. *)
Fixpoint splitRuns_aux (p : ascii -> bool) (s buffer : string) (inRun : bool)
  : list string :=
  match s with
  | EmptyString => [strRev buffer]
  | String c r =>
      if p c
      then if inRun then splitRuns_aux p r buffer true
           else strRev buffer :: splitRuns_aux p r EmptyString true
      else splitRuns_aux p r (String c buffer) false
  end.

(** [s.split(/\s+/)] *)
Definition splitSpaces (s : string) : list string :=
  splitRuns_aux isSpace s EmptyString false.

(** [parts.filter(Boolean)] on strings: the empty string is falsy. *)
Definition nonEmpty (s : string) : bool :=
  match s with EmptyString => false | _ => true end.

(** [s.padStart(n, '0')] *)
Fixpoint zeros (n : nat) : string :=
  match n with O => EmptyString | S k => String "0" (zeros k) end.

Definition padStart0 (n : nat) (s : string) : string :=
  zeros (n - String.length s) ++ s.

(** ** Numbers *)

Inductive num : Type :=
| NaN
| Inf (positive : bool)
| Fin (q : Q).

Definition fin (q : Q) : num := Fin (Qred q).
Definition ofZ (z : Z) : num := Fin (z # 1).
Definition ofN (n : N) : num := ofZ (Z.of_N n).
Definition ofNat (n : nat) : num := ofZ (Z.of_nat n).

Definition Qlt_bool (p q : Q) : bool := negb (Qle_bool q p).

(** [a === b] on numbers. *)
Definition strictEq (a b : num) : bool :=
  match a, b with
  | Fin p, Fin q => Qeq_bool p q
  | Inf s, Inf t => Bool.eqb s t
  | _, _ => false
  end.

(** [a < b] *)
Definition lt (a b : num) : bool :=
  match a, b with
  | NaN, _ | _, NaN => false
  | Fin p, Fin q => Qlt_bool p q
  | Inf s, Inf t => negb s && t
  | Inf s, Fin _ => negb s
  | Fin _, Inf t => t
  end.

(** [a > b] *)
Definition gt (a b : num) : bool := lt b a.

(** [a <= b] *)
Definition le (a b : num) : bool :=
  match a, b with
  | NaN, _ | _, NaN => false
  | _, _ => negb (lt b a)
  end.

Definition neg (a : num) : num :=
  match a with
  | NaN => NaN
  | Inf s => Inf (negb s)
  | Fin q => fin (- q)
  end.

Definition add (a b : num) : num :=
  match a, b with
  | NaN, _ | _, NaN => NaN
  | Inf s, Inf t => if Bool.eqb s t then Inf s else NaN
  | Inf s, Fin _ => Inf s
  | Fin _, Inf t => Inf t
  | Fin p, Fin q => fin (p + q)
  end.

Definition sub (a b : num) : num := add a (neg b).

Definition isNegQ (q : Q) : bool := Qlt_bool q 0.
Definition isZeroQ (q : Q) : bool := Qeq_bool q 0.

Definition mul (a b : num) : num :=
  match a, b with
  | NaN, _ | _, NaN => NaN
  | Inf s, Inf t => Inf (Bool.eqb s t)
  | Inf s, Fin q | Fin q, Inf s =>
      if isZeroQ q then NaN else Inf (xorb s (isNegQ q))
  | Fin p, Fin q => fin (p * q)
  end.

Definition div (a b : num) : num :=
  match a, b with
  | NaN, _ | _, NaN => NaN
  | Inf _, Inf _ => NaN
  | Inf s, Fin q => Inf (xorb s (isNegQ q))
  | Fin _, Inf _ => Fin 0
  | Fin p, Fin q =>
      if isZeroQ q
      then if isZeroQ p then NaN else Inf (negb (isNegQ p))
      else fin (p / q)
  end.

(** [Number.isNaN] *)
Definition isNaN (a : num) : bool :=
  match a with NaN => true | _ => false end.

(** [Number.isFinite], [isFinite] *)
Definition isFinite (a : num) : bool :=
  match a with Fin _ => true | _ => false end.

(** [Number.isInteger] *)
Definition isInteger (a : num) : bool :=
  match a with
  | Fin q => Qeq_bool (inject_Z (Qfloor q)) q
  | _ => false
  end.

(** Truthiness of a number: [0] and [NaN] are falsy. *)
Definition truthy (a : num) : bool :=
  match a with
  | NaN => false
  | Inf _ => true
  | Fin q => negb (isZeroQ q)
  end.

(** [Math.min(a, b)] *)
Definition min2 (a b : num) : num :=
  match a, b with
  | NaN, _ | _, NaN => NaN
  | _, _ => if lt b a then b else a
  end.

(** [Math.max(a, b)] *)
Definition max2 (a b : num) : num :=
  match a, b with
  | NaN, _ | _, NaN => NaN
  | _, _ => if lt a b then b else a
  end.

(** [Math.min(a, b, c)] *)
Definition min3 (a b c : num) : num := min2 (min2 a b) c.

(** [Math.abs] *)
Definition abs (a : num) : num :=
  match a with
  | NaN => NaN
  | Inf _ => Inf true
  | Fin q => fin (Qabs q)
  end.

(** [Math.round]: the integer nearest to [a], ties towards +Infinity. *)
Definition round (a : num) : num :=
  match a with
  | Fin q => ofZ (Qfloor (q + (1 # 2)))
  | _ => a
  end.

(** [Number.EPSILON] = 2^-52 *)
Definition EPSILON : num := Fin (1 # 4503599627370496).

(** [Math.PI]: the binary64 constant, as the rational it denotes. *)
Definition PI : num := Fin (884279719003555 # 281474976710656).

(** *** Reading numbers *)

Fixpoint digitsValue_aux (radix : N) (s : string) (acc : N) : N :=
  match s with
  | EmptyString => acc
  | String c r => digitsValue_aux radix r (acc * radix + digitValue c)%N
  end.

Definition digitsValue (radix : N) (s : string) : N := digitsValue_aux radix s 0.

Definition pow10 (e : Z) : Q :=
  if (0 <=? e)%Z then inject_Z (10 ^ e) else / inject_Z (10 ^ (- e)).

Definition splitSign (s : string) : bool * string :=
  match s with
  | String c r =>
      if Ascii.eqb c "-" then (true, r)
      else if Ascii.eqb c "+" then (false, r)
      else (false, s)
  | EmptyString => (false, s)
  end.

(** ExponentPart of a decimal literal: consumed only when digits follow. *)
Definition scanExponent (s : string) : Z * string :=
  match s with
  | String c r =>
      if Ascii.eqb c "e" || Ascii.eqb c "E"
      then let '(negative, body) := splitSign r in
           let '(ds, rest) := span isDigit body in
           if nonEmpty ds
           then let e := Z.of_N (digitsValue 10 ds) in
                ((if negative then - e else e)%Z, rest)
           else (0%Z, s)
      else (0%Z, s)
  | EmptyString => (0%Z, s)
  end.

(** The longest prefix of [s] that is a StrDecimalLiteral
    ([[+-]? (Infinity | digits [. digits?] exp? | . digits exp?)]), with its
    value and the remainder of [s]. *)
Definition scanStrDecimalLiteral (s : string) : option (num * string) :=
  let '(negative, body) := splitSign s in
  if startsWith "Infinity" body
  then Some (Inf (negb negative), skipn_str 8 body)
  else
    let '(ip, r1) := span isDigit body in
    let '(fp, r2) :=
      match r1 with
      | String c r => if Ascii.eqb c "." then span isDigit r else (EmptyString, r1)
      | EmptyString => (EmptyString, r1)
      end in
    if nonEmpty ip || nonEmpty fp
    then let '(e, r3) := scanExponent r2 in
         let m := inject_Z (Z.of_N (digitsValue 10 (ip ++ fp))) in
         let q := m * pow10 (e - Z.of_nat (String.length fp)) in
         Some (fin (if negative then - q else q), r3)
    else None.

(** [parseFloat(s)] *)
Definition parseFloat (s : string) : num :=
  match scanStrDecimalLiteral (trimStart s) with
  | Some (v, _) => v
  | None => NaN
  end.

(** [parseInt(s, radix)] for [radix] 10 or 16. *)
Definition parseInt (s : string) (radix : N) : num :=
  let '(negative, body) := splitSign (trimStart s) in
  let body' :=
    if (radix =? 16)%N && (startsWith "0x" body || startsWith "0X" body)
    then skipn_str 2 body else body in
  let '(ds, _) := span (isRadixDigit radix) body' in
  if nonEmpty ds
  then let v := Z.of_N (digitsValue radix ds) in
       ofZ (if negative then - v else v)
  else NaN.

Definition radixLiteral (radix : N) (digits : string) : num :=
  if nonEmpty digits && strAll (isRadixDigit radix) digits
  then ofN (digitsValue radix digits) else NaN.

(** [Number(s)]: the whole of [s], trimmed, must be a numeric literal; the
    empty string converts to [0]. *)
Definition Number (s : string) : num :=
  let t := trim s in
  let decimal :=
    match scanStrDecimalLiteral t with
    | Some (v, EmptyString) => v
    | _ => NaN
    end in
  match t with
  | EmptyString => ofZ 0
  | String z (String c r) =>
      if Ascii.eqb z "0"
      then if Ascii.eqb c "x" || Ascii.eqb c "X" then radixLiteral 16 r
           else if Ascii.eqb c "o" || Ascii.eqb c "O" then radixLiteral 8 r
           else if Ascii.eqb c "b" || Ascii.eqb c "B" then radixLiteral 2 r
           else decimal
      else decimal
  | _ => decimal
  end.

(** *** Writing numbers *)

Definition digitChar (d : N) : ascii :=
  if (d <? 10)%N then ascii_of_N (48 + d) else ascii_of_N (87 + d).

Fixpoint natDigits (fuel : nat) (radix n : N) (acc : string) : string :=
  match fuel with
  | O => acc
  | S k =>
      let acc' := String (digitChar (n mod radix)) acc in
      if (n / radix =? 0)%N then acc' else natDigits k radix (n / radix) acc'
  end.

(** The numeral of a natural number in the given radix. *)
Definition naturalToString (radix n : N) : string :=
  natDigits (S (N.to_nat (N.log2 n))) radix n EmptyString.

(** The numeral of an integer. *)
Definition integerToString (radix : N) (z : Z) : string :=
  if (z <? 0)%Z then "-" ++ naturalToString radix (Z.abs_N z)
  else naturalToString radix (Z.abs_N z).

(** Digits of the fractional part [q] (with [0 <= q < 1]) in the given
    radix, as far as the expansion goes within [fuel] digits. *)
Fixpoint fractionDigits (fuel : nat) (radix : N) (q : Q) : string :=
  match fuel with
  | O => EmptyString
  | S k =>
      if isZeroQ q then EmptyString
      else let scaled := q * inject_Z (Z.of_N radix) in
           let d := Qfloor scaled in
           String (digitChar (Z.to_N d))
                  (fractionDigits k radix (Qred (scaled - inject_Z d)))
  end.

(** [x.toString(16)].  For an integer this is its hexadecimal numeral; the
    digits after the point of a non-integer are left to the engine by
    ECMAScript and are given here by the exact expansion, cut at 52
    digits. *)
Definition toString16 (x : num) : string :=
  match x with
  | NaN => "NaN"
  | Inf true => "Infinity"
  | Inf false => "-Infinity"
  | Fin q =>
      let a := Qabs q in
      let ip := Qfloor a in
      let fp := Qred (a - inject_Z ip) in
      (if isNegQ q then "-" else EmptyString)
        ++ naturalToString 16 (Z.to_N ip)
        ++ (if isZeroQ fp then EmptyString else "." ++ fractionDigits 52 16 fp)
  end.

Close Scope Q_scope.

(** ** Data model *)

Module GradientStop.
Record t : Type := mk { color : string; opacity : num; offset : num }.
End GradientStop.

Module SolidFill.
Record t : Type := mk { color : string; opacity : num }.
End SolidFill.

Module LinearGradientFill.
Record t : Type := mk { angle : num; stops : list GradientStop.t }.
End LinearGradientFill.

(** [Fill = SolidFill | LinearGradientFill]; the [kind] tag is the
    constructor. *)
Inductive Fill : Type :=
| Solid (fill : SolidFill.t)
| Gradient (fill : LinearGradientFill.t).

Module BorderSide.
Record t : Type := mk { width : num; color : string; opacity : num; style : string }.
End BorderSide.

Module BorderSet.
Record t : Type := mk { top : BorderSide.t; right : BorderSide.t;
                        bottom : BorderSide.t; left : BorderSide.t }.
End BorderSet.

Module BorderRadius.
Record t : Type := mk { topLeft : num; topRight : num;
                        bottomRight : num; bottomLeft : num }.
End BorderRadius.

Module BoxShadow.
Record t : Type := mk { inset : bool; offsetX : num; offsetY : num; blur : num;
                        spread : num; color : string; opacity : num }.
End BoxShadow.

Inductive TextAnchor : Type := AnchorStart | AnchorMiddle | AnchorEnd.

Module TextPayload.
Record t : Type := mk { content : string; color : string; opacity : num;
                        fontFamily : string; fontSize : num; fontWeight : string;
                        fontStyle : string; letterSpacing : num; lineHeight : num;
                        textAnchor : TextAnchor }.
End TextPayload.

(** The fields shared by every node; [className] is [None] for
    [undefined]. *)
Module BaseNode.
Record t : Type := mk { id : string; x : num; y : num; width : num; height : num;
                        opacity : num; className : option string }.
End BaseNode.

#[local] Unset Elimination Schemes.

(** [SimpleNode = BoxNode | TextNode | IconNode]; the [kind] tag is the
    constructor.  [svgPath] and [viewBox] are [None] when the property read
    that fills them yields [undefined]. *)
Inductive SimpleNode : Type :=
| BoxNode (base : BaseNode.t) (tagName : string) (background : option Fill)
          (borderRadius : BorderRadius.t) (borders : option BorderSet.t)
          (shadows : list BoxShadow.t) (overflowHidden : bool)
          (children : list SimpleNode)
| TextNode (base : BaseNode.t) (tagName : string) (text : TextPayload.t)
| IconNode (base : BaseNode.t) (tagName : string) (iconName : string)
           (color : string) (svgPath : option string) (viewBox : option string).

#[local] Set Elimination Schemes.

Module RgbaColor.
Record t : Type := mk { color : string; opacity : num }.
End RgbaColor.

(** The computed style of an element, restricted to the properties the
    source reads. *)
Module Style.
Record t : Type := mk {
  display : string; visibility : string; opacity : string;
  backgroundImage : string; backgroundColor : string;
  color : string; fontSize : string; fontFamily : string; lineHeight : string;
  letterSpacing : string; textAlign : string; fontWeight : string;
  fontStyle : string;
  overflow : string; overflowX : string; overflowY : string;
  borderTopLeftRadius : string; borderTopRightRadius : string;
  borderBottomRightRadius : string; borderBottomLeftRadius : string;
  borderTopWidth : string; borderTopStyle : string; borderTopColor : string;
  borderRightWidth : string; borderRightStyle : string; borderRightColor : string;
  borderBottomWidth : string; borderBottomStyle : string; borderBottomColor : string;
  borderLeftWidth : string; borderLeftStyle : string; borderLeftColor : string;
  boxShadow : string }.
End Style.

(** ** Regular expressions of the source *)

Definition bind {A B : Type} (o : option A) (k : A -> option B) : option B :=
  match o with Some a => k a | None => None end.

Notation "x <- o ;; k" := (bind o (fun x => k))
  (at level 61, o at next level, right associativity).

(** A literal, compared without regard to case. *)
Definition litCI (p s : string) : option string :=
  if String.eqb (toLowerCase (firstn_str (String.length p) s)) p
  then Some (skipn_str (String.length p) s) else None.

Definition lit (p s : string) : option string :=
  if startsWith p s then Some (skipn_str (String.length p) s) else None.

(** An optional one-letter literal, case-insensitive. *)
Definition optCI (c : ascii) (s : string) : string :=
  match s with
  | String d r => if Ascii.eqb (lowerChar d) c then r else s
  | EmptyString => s
  end.

(** [p+], greedy. *)
Definition many1 (p : ascii -> bool) (s : string) : option (string * string) :=
  let '(a, b) := span p s in
  if nonEmpty a then Some (a, b) else None.

(** [\s*,\s*] *)
Definition commaSep (s : string) : option string :=
  r <- lit "," (dropWhile isSpace s) ;; Some (dropWhile isSpace r).

Definition isDigitOrDot (c : ascii) : bool := isDigit c || Ascii.eqb c ".".

(** RGBA_REGEX anchored at the start of [s]:
    [rgba?\((\d+)\s*,\s*(\d+)\s*,\s*(\d+)(?:\s*,\s*([\d.]+))?\)] with flag
    [i].  The result holds the four capture groups. *)
Definition matchRgbaAt (s : string)
  : option (string * string * string * option string) :=
  r0 <- litCI "rgb" s ;;
  r1 <- lit "(" (optCI "a" r0) ;;
  m1 <- many1 isDigit r1 ;;
  r2 <- commaSep (snd m1) ;;
  m2 <- many1 isDigit r2 ;;
  r3 <- commaSep (snd m2) ;;
  m3 <- many1 isDigit r3 ;;
  match (r4 <- commaSep (snd m3) ;;
         m4 <- many1 isDigitOrDot r4 ;;
         _ <- lit ")" (snd m4) ;;
         Some (fst m4)) with
  | Some alpha => Some (fst m1, fst m2, fst m3, Some alpha)
  | None =>
      _ <- lit ")" (snd m3) ;;
      Some (fst m1, fst m2, fst m3, None)
  end.

(** [value.match(RGBA_REGEX)]: the leftmost match. *)
Fixpoint matchRgba (s : string)
  : option (string * string * string * option string) :=
  match matchRgbaAt s with
  | Some m => Some m
  | None =>
      match s with
      | EmptyString => None
      | String _ r => matchRgba r
      end
  end.

(** [value.match(HEX_REGEX)]:
    [^#([0-9a-f]{3}|[0-9a-f]{4}|[0-9a-f]{6}|[0-9a-f]{8})$] with flag [i].
    The result is the capture group. *)
Definition matchHex (s : string) : option string :=
  match s with
  | String c h =>
      let n := String.length h in
      if Ascii.eqb c "#" && strAll isHexDigit h
         && (Nat.eqb n 3 || Nat.eqb n 4 || Nat.eqb n 6 || Nat.eqb n 8)
      then Some h else None
  | EmptyString => None
  end.

(** PX_REGEX anchored at the start of [s]: [(-?\d+(?:\.\d+)?)px].  The
    result is the capture group. *)
Definition matchPxAt (s : string) : option string :=
  let '(sign, body) :=
    match s with
    | String c r => if Ascii.eqb c "-" then ("-", r) else (EmptyString, s)
    | EmptyString => (EmptyString, s)
    end in
  m <- many1 isDigit body ;;
  let '(frac, rest) :=
    match snd m with
    | String c r =>
        if Ascii.eqb c "."
        then match many1 isDigit r with
             | Some (f, r') => ("." ++ f, r')
             | None => (EmptyString, snd m)
             end
        else (EmptyString, snd m)
    | EmptyString => (EmptyString, snd m)
    end in
  _ <- lit "px" rest ;;
  Some (sign ++ fst m ++ frac).

(** [value.match(PX_REGEX)]: the leftmost match. *)
Fixpoint matchPx (s : string) : option string :=
  match matchPxAt s with
  | Some m => Some m
  | None =>
      match s with
      | EmptyString => None
      | String _ r => matchPx r
      end
  end.

(** [[^)]*\)$]: the first closing parenthesis is the last character. *)
Fixpoint closesAtEnd (s : string) : bool :=
  match s with
  | EmptyString => false
  | String c r =>
      if Ascii.eqb c ")" then negb (nonEmpty r) else closesAtEnd r
  end.

Definition functionToEnd (name : string) (s : string) : bool :=
  match (r0 <- litCI name s ;; lit "(" (optCI "a" r0)) with
  | Some body => closesAtEnd body
  | None => false
  end.

(** SHADOW_COLOR_REGEX anchored at the start of [s]:
    [(rgba?\([^)]*\)|hsla?\([^)]*\)|#[0-9a-f]{3,8}|[a-z]+)$] with flag
    [i]; a match always runs to the end of [s]. *)
Definition matchShadowColorAt (s : string) : bool :=
  functionToEnd "rgb" s
  || functionToEnd "hsl" s
  || match s with
     | String c h =>
         Ascii.eqb c "#" && strAll isHexDigit h
         && Nat.leb 3 (String.length h) && Nat.leb (String.length h) 8
     | EmptyString => false
     end
  || (nonEmpty s && strAll isLetter s).

(** [value.match(SHADOW_COLOR_REGEX)]: the index of the leftmost match and
    the matched text. *)
Fixpoint matchShadowColor (s : string) (pos : nat) : option (nat * string) :=
  if matchShadowColorAt s then Some (pos, s)
  else match s with
       | EmptyString => None
       | String _ r => matchShadowColor r (S pos)
       end.

(** [(^|\s)inset(\s|$)] with flag [i], anchored at the start of [s];
    [atStart] tells whether [s] begins the subject.  The result is the
    length of the match. *)
Definition matchInsetAt (s : string) (atStart : bool) : option nat :=
  let after (lead : nat) (r : string) : option nat :=
    r' <- litCI "inset" r ;;
    match r' with
    | EmptyString => Some (lead + 5)
    | String c _ => if isSpace c then Some (lead + 6) else None
    end in
  match (if atStart then after 0 s else None) with
  | Some n => Some n
  | None =>
      match s with
      | String c r => if isSpace c then after 1 r else None
      | EmptyString => None
      end
  end.

(** [/(^|\s)inset(\s|$)/i.test(value)] *)
Fixpoint testInset (s : string) (atStart : bool) : bool :=
  match matchInsetAt s atStart with
  | Some _ => true
  | None =>
      match s with
      | EmptyString => false
      | String _ r => testInset r false
      end
  end.

(** [value.replace(/(^|\s)inset(\s|$)/gi, ' ')]; [skip] counts the
    characters of the current match still to be dropped. *)
Fixpoint replaceInset (s : string) (atStart : bool) (skip : nat) : string :=
  match s with
  | EmptyString => EmptyString
  | String c r =>
      match skip with
      | S k => replaceInset r false k
      | O =>
          match matchInsetAt s atStart with
          | Some n => String " " (replaceInset r false (n - 1))
          | None => String c (replaceInset r false 0)
          end
      end
  end.

(** The look-ahead [[^()]*\)]: the next parenthesis, if any, is a closing
    one. *)
Fixpoint closesParenNext (s : string) : bool :=
  match s with
  | EmptyString => false
  | String c r =>
      if Ascii.eqb c ")" then true
      else if Ascii.eqb c "(" then false
      else closesParenNext r
  end.

(** [token.split(/\s+(?![^()]*\))/)]: split at the runs of white space
    that are not followed by a closing parenthesis before any opening
    one. *)
Fixpoint splitOutsideParens_aux (s buffer : string) (inRun : bool) : list string :=
  match s with
  | EmptyString => [strRev buffer]
  | String c r =>
      if isSpace c
      then if inRun then splitOutsideParens_aux r buffer true
           else if closesParenNext (dropWhile isSpace r)
                then splitOutsideParens_aux r (String c buffer) false
                else strRev buffer :: splitOutsideParens_aux r EmptyString true
      else splitOutsideParens_aux r (String c buffer) false
  end.

Definition splitOutsideParens (s : string) : list string :=
  splitOutsideParens_aux s EmptyString false.

(** ** Style value parsers *)

Definition clampChannel (value : num) : num :=
  min2 (ofZ 255) (max2 (ofZ 0) value).

Definition clampNumber (value fallback : num) : num :=
  if isNaN value || negb (isFinite value) then fallback else value.

Definition rgbToHex (r g b : num) : string :=
  let toHex (channel : num) := padStart0 2 (toString16 channel) in
  "#" ++ toHex r ++ toHex g ++ toHex b.

Definition normalizeHex (value : string) : string :=
  if Nat.eqb (String.length value) 3
  then join EmptyString (map (fun char => char ++ char) (chars value)) ++ "ff"
  else if Nat.eqb (String.length value) 4
  then join EmptyString (map (fun char => char ++ char) (chars value))
  else if Nat.eqb (String.length value) 6
  then value ++ "ff"
  else value.

Definition parseColor (value : string) : RgbaColor.t :=
  if negb (nonEmpty value)
  then RgbaColor.mk "#000000" (ofZ 1)
  else
    let trimmed := trim value in
    match matchRgba trimmed with
    | Some (m1, m2, m3, m4) =>
        let r := clampChannel (parseInt m1 10) in
        let g := clampChannel (parseInt m2 10) in
        let b := clampChannel (parseInt m3 10) in
        let a := match m4 with
                 | Some alpha => clampNumber (parseFloat alpha) (ofZ 1)
                 | None => ofZ 1
                 end in
        RgbaColor.mk (rgbToHex r g b) a
    | None =>
        match matchHex trimmed with
        | Some h =>
            let normalized := normalizeHex h in
            let opacity :=
              if Nat.eqb (String.length normalized) 8
              then div (parseInt (sliceFrom 6 normalized) 16) (ofZ 255)
              else ofZ 1 in
            RgbaColor.mk ("#" ++ slice 0 6 normalized) opacity
        | None => RgbaColor.mk trimmed (ofZ 1)
        end
    end.

Definition parsePx (value : string) (fallback : num) : num :=
  if negb (nonEmpty value) then fallback
  else match matchPx value with
       | Some m => parseFloat m
       | None =>
           let parsed := parseFloat value in
           if isNaN parsed then fallback else parsed
       end.

Definition parseLineHeight (value : string) (fontSize : num) : num :=
  if negb (nonEmpty value) || String.eqb value "normal"
  then mul fontSize (Fin (12 # 10))
  else if endsWith "%" value
  then mul (div (parseFloat value) (ofZ 100)) fontSize
  else if endsWith "px" value
  then parsePx value fontSize
  else let numeric := parseFloat value in
       if negb (isNaN numeric) then mul numeric fontSize
       else mul fontSize (Fin (12 # 10)).

Definition isQuote (c : ascii) : bool :=
  Ascii.eqb c doubleQuote || Ascii.eqb c "'".

Definition sanitizeFontFamily (value : string) : string :=
  if negb (nonEmpty value) then "sans-serif"
  else join ", " (map (fun family => removeChars isQuote (trim family))
                      (splitChar "," value)).

Definition toTextAnchor (textAlign : string) : TextAnchor :=
  if String.eqb textAlign "center" then AnchorMiddle
  else if String.eqb textAlign "right" || String.eqb textAlign "end" then AnchorEnd
  else AnchorStart.

Definition isRenderable (style : Style.t) : bool :=
  if String.eqb (Style.display style) "none" then false
  else if String.eqb (Style.visibility style) "hidden"
          || String.eqb (Style.visibility style) "collapse" then false
  else let opacity := parseFloat (Style.opacity style) in
       gt opacity (ofZ 0).

(** *** Gradients *)

(** The scan of [extractLinearGradientSegment] for the parenthesis that
    closes the one at [start]; [i] is the index of the head of [s]. *)
Fixpoint findClosing (s : string) (i depth : nat) : option nat :=
  match s with
  | EmptyString => None
  | String char r =>
      if Ascii.eqb char "(" then findClosing r (S i) (depth + 1)
      else if Ascii.eqb char ")"
      then if Nat.eqb (depth - 1) 0 then Some i
           else findClosing r (S i) (depth - 1)
      else findClosing r (S i) depth
  end.

Definition extractLinearGradientSegment (value : string) : option string :=
  index <- indexOf "linear-gradient" value ;;
  start <- indexOfFrom "(" index value ;;
  i <- findClosing (skipn_str (start + 1) value) (start + 1) 1 ;;
  Some (slice index (i + 1) value).

(** The loop shared, word for word, by [splitGradientArgs] and
    [splitShadowValue]. *)
Fixpoint splitTopLevel (input : string) (result : list string)
         (buffer : string) (depth : nat) : list string :=
  match input with
  | EmptyString =>
      if nonEmpty (trim buffer) then (result ++ [trim buffer])%list else result
  | String char rest =>
      let depth' :=
        if Ascii.eqb char "(" then depth + 1
        else if Ascii.eqb char ")" then Nat.max (depth - 1) 0
        else depth in
      if Ascii.eqb char "," && Nat.eqb depth' 0
      then splitTopLevel rest (result ++ [trim buffer])%list EmptyString depth'
      else splitTopLevel rest result (buffer ++ str char) depth'
  end.

Definition splitGradientArgs (input : string) : list string :=
  splitTopLevel input [] EmptyString 0.

Definition parseGradientAngle (token : string) : num :=
  let trimmed := toLowerCase (trim token) in
  if endsWith "deg" trimmed
  then clampNumber (parseFloat trimmed) (ofZ 180)
  else if endsWith "rad" trimmed
  then clampNumber (div (mul (parseFloat trimmed) (ofZ 180)) PI) (ofZ 180)
  else if String.eqb trimmed "to top" then ofZ 0
  else if String.eqb trimmed "to right" then ofZ 90
  else if String.eqb trimmed "to bottom" then ofZ 180
  else if String.eqb trimmed "to left" then ofZ 270
  else if String.eqb trimmed "to top right" then ofZ 45
  else if String.eqb trimmed "to top left" then ofZ 315
  else if String.eqb trimmed "to bottom right" then ofZ 135
  else if String.eqb trimmed "to bottom left" then ofZ 225
  else ofZ 180.

(** [index / Math.max(total - 1, 1)] *)
Definition evenOffset (index total : nat) : num :=
  div (ofNat index) (max2 (sub (ofNat total) (ofZ 1)) (ofZ 1)).

Definition parseGradientStop (token : string) (index total : nat)
  : option GradientStop.t :=
  if negb (nonEmpty token) then None
  else
    let parts := splitOutsideParens token in
    let '(colorToken, offsetValue) :=
      if Nat.ltb 1 (List.length parts)
      then let maybeOffset := last parts EmptyString in
           if endsWith "%" maybeOffset
           then (join " " (removelast parts),
                 Some (clampNumber (div (parseFloat maybeOffset) (ofZ 100))
                                   (evenOffset index total)))
           else (token, None)
      else (token, None) in
    let c := parseColor colorToken in
    let offset := match offsetValue with
                  | Some v => v
                  | None => evenOffset index total
                  end in
    Some (GradientStop.mk (RgbaColor.color c) (RgbaColor.opacity c) offset).

(** The [forEach] of [parseLinearGradient]: [arr] is what is left of the
    sliced token array, [index] the position of its head, [total] the
    length of the whole array. *)
Fixpoint collectStops (arr : list string) (index total : nat)
  : list GradientStop.t :=
  match arr with
  | [] => []
  | token :: rest =>
      match parseGradientStop (trim token) index total with
      | Some stop => stop :: collectStops rest (S index) total
      | None => collectStops rest (S index) total
      end
  end.

Definition parseLinearGradient (value : string) : option LinearGradientFill.t :=
  segment <- extractLinearGradientSegment value ;;
  let inner :=
    sliceDropLast (match indexOf "(" segment with Some i => i + 1 | None => 0 end)
                  segment in
  let tokens := splitGradientArgs inner in
  match tokens with
  | [] => None
  | first :: _ =>
      let '(angle, startIndex) :=
        if includes "deg" first || includes "rad" first || startsWith "to " first
        then (parseGradientAngle first, 1)
        else (ofZ 180, 0) in
      if Nat.ltb (List.length tokens - startIndex) 2 then None
      else
        let arr := skipn startIndex tokens in
        let stops := collectStops arr 0 (List.length arr) in
        if Nat.ltb (List.length stops) 2 then None
        else Some (LinearGradientFill.mk angle stops)
  end.

Definition parseFill (style : Style.t) : option Fill :=
  let fromColor :=
    if nonEmpty (Style.backgroundColor style)
       && negb (String.eqb (Style.backgroundColor style) "rgba(0, 0, 0, 0)")
       && negb (String.eqb (Style.backgroundColor style) "transparent")
    then let c := parseColor (Style.backgroundColor style) in
         Some (Solid (SolidFill.mk (RgbaColor.color c) (RgbaColor.opacity c)))
    else None in
  if nonEmpty (Style.backgroundImage style)
     && negb (String.eqb (Style.backgroundImage style) "none")
  then match parseLinearGradient (Style.backgroundImage style) with
       | Some gradient => Some (Gradient gradient)
       | None => fromColor
       end
  else fromColor.

(** *** Borders, radii, shadows *)

Definition parseBorderRadius (style : Style.t) : BorderRadius.t :=
  let parseValue (value : string) : num :=
    if nonEmpty value && negb (String.eqb value "0px")
    then parsePx value (ofZ 0) else ofZ 0 in
  BorderRadius.mk (parseValue (Style.borderTopLeftRadius style))
                  (parseValue (Style.borderTopRightRadius style))
                  (parseValue (Style.borderBottomRightRadius style))
                  (parseValue (Style.borderBottomLeftRadius style)).

Definition defaultBorderSide : BorderSide.t :=
  BorderSide.mk (ofZ 0) "#000000" (ofZ 1) "solid".

(** The body of the [sides.forEach] callback of [parseBorders]: the entry
    stored for one side, if any.  The three values are strings (a computed
    style holds no [null]), so the [??] defaults never apply. *)
Definition parseBorderSide (widthValue styleValue colorValue : string)
  : option BorderSide.t :=
  let width := parsePx widthValue (ofZ 0) in
  if le width (ofZ 0) || String.eqb styleValue "none" then None
  else let c := parseColor colorValue in
       Some (BorderSide.mk width (RgbaColor.color c) (RgbaColor.opacity c)
                           styleValue).

Definition parseBorders (style : Style.t) : option BorderSet.t :=
  let Top := parseBorderSide (Style.borderTopWidth style)
                             (Style.borderTopStyle style)
                             (Style.borderTopColor style) in
  let Right := parseBorderSide (Style.borderRightWidth style)
                               (Style.borderRightStyle style)
                               (Style.borderRightColor style) in
  let Bottom := parseBorderSide (Style.borderBottomWidth style)
                                (Style.borderBottomStyle style)
                                (Style.borderBottomColor style) in
  let Left := parseBorderSide (Style.borderLeftWidth style)
                              (Style.borderLeftStyle style)
                              (Style.borderLeftColor style) in
  match Top, Right, Bottom, Left with
  | None, None, None, None => None
  | _, _, _, _ =>
      let fallback := defaultBorderSide in
      let orFallback (side : option BorderSide.t) :=
        match side with Some b => b | None => fallback end in
      Some (BorderSet.mk (orFallback Top) (orFallback Right)
                         (orFallback Bottom) (orFallback Left))
  end.

Definition splitShadowValue (value : string) : list string :=
  splitTopLevel value [] EmptyString 0.

Definition parseSingleShadow (value : string) : option BoxShadow.t :=
  if negb (nonEmpty value) then None
  else
    let inset := testInset value true in
    let cleaned := trim (replaceInset value true 0) in
    let '(colorToken, numericPart) :=
      match matchShadowColor cleaned 0 with
      | Some (index, matched) =>
          (matched,
           trim (slice 0 index cleaned
                 ++ sliceFrom (index + String.length matched) cleaned))
      | None => ("rgba(0, 0, 0, 0.25)", cleaned)
      end in
    let tokens := filter nonEmpty (splitSpaces numericPart) in
    if Nat.ltb (List.length tokens) 2 then None
    else
      let offsetX := nth 0 tokens EmptyString in
      let offsetY := nth 1 tokens EmptyString in
      let blur := nth 2 tokens "0px" in
      let spread := nth 3 tokens "0px" in
      let c := parseColor colorToken in
      Some (BoxShadow.mk inset (parsePx offsetX (ofZ 0)) (parsePx offsetY (ofZ 0))
                         (max2 (ofZ 0) (parsePx blur (ofZ 0)))
                         (parsePx spread (ofZ 0))
                         (RgbaColor.color c) (RgbaColor.opacity c)).

Fixpoint keepParsed {A B : Type} (f : A -> option B) (l : list A) : list B :=
  match l with
  | [] => []
  | a :: rest =>
      match f a with
      | Some b => b :: keepParsed f rest
      | None => keepParsed f rest
      end
  end.

Definition parseBoxShadows (style : Style.t) : list BoxShadow.t :=
  let value := Style.boxShadow style in
  if negb (nonEmpty value) || String.eqb value "none" then []
  else keepParsed (fun shadow => parseSingleShadow (trim shadow))
                  (splitShadowValue value).

(** ** The styled element tree *)

Module DOMRect.
Record t : Type := mk { left : num; top : num; right : num; bottom : num;
                        width : num; height : num }.
End DOMRect.

(** What the source reads of an element: [isHTMLElement] answers
    [instanceof HTMLElement], [rect] is [getBoundingClientRect()], [style]
    is [window.getComputedStyle(element)]. *)
Module ElementInfo.
Record t : Type := mk { isHTMLElement : bool; tagName : string; id : string;
                        className : string; rect : DOMRect.t; style : Style.t }.
End ElementInfo.

#[local] Unset Elimination Schemes.

(** A node of the live tree.  A text node carries, for each of its
    characters, the rectangle a one-character [Range] over it measures. *)
Inductive DomNode : Type :=
| Element (info : ElementInfo.t) (childNodes : list DomNode)
| Text (textContent : string) (charRects : list DOMRect.t)
| Comment (data : string).

#[local] Set Elimination Schemes.

(** An element handle: what it exposes, and its child nodes. *)
Definition HTMLElement : Type := (ElementInfo.t * list DomNode)%type.

(** [node.textContent] *)
Fixpoint textContent (node : DomNode) : string :=
  match node with
  | Element _ childNodes =>
      (fix all (l : list DomNode) : string :=
         match l with
         | [] => EmptyString
         | child :: rest =>
             match child with
             | Comment _ => all rest
             | _ => textContent child ++ all rest
             end
         end) childNodes
  | Text content _ => content
  | Comment data => data
  end.

(** HTML's ASCII white space, which separates the tokens of [classList]. *)
Definition isAsciiWhitespace (c : ascii) : bool :=
  (charCode c =? 9)%N || (charCode c =? 10)%N || (charCode c =? 12)%N
  || (charCode c =? 13)%N || (charCode c =? 32)%N.

(** [element.classList.contains(token)] *)
Definition classListContains (token className : string) : bool :=
  existsb (String.eqb token)
          (filter nonEmpty (splitRuns_aux isAsciiWhitespace className EmptyString false)).

Definition IGNORED_TAGS : list string :=
  ["SCRIPT"; "STYLE"; "META"; "TITLE"; "LINK"; "NOSCRIPT"].

(** [IGNORED_TAGS.has(tagName)] *)
Definition isIgnoredTag (tagName : string) : bool :=
  existsb (String.eqb tagName) IGNORED_TAGS.

(** ** Tree snapshotter *)

(** The literal-numeral rendering of [nodeCounter] in a template
    literal. *)
Definition counterToString (n : nat) : string :=
  integerToString 10 (Z.of_nat n).

Definition optionalClassName (className : string) : option string :=
  if nonEmpty className then Some className else None.

Definition zeroRect : DOMRect.t :=
  DOMRect.mk (ofZ 0) (ofZ 0) (ofZ 0) (ofZ 0) (ofZ 0) (ofZ 0).

(** *** Visual line segmentation *)

(** The mutable locals of [splitTextByVisualLines]. *)
Module LineState.
Record t : Type := mk { segments : list (string * DOMRect.t);
                        currentTop : option num; lineStart : nat;
                        aggLeft : num; aggTop : num;
                        aggRight : num; aggBottom : num }.
End LineState.

Definition commitLine (content : string) (st : LineState.t) (endExclusive : nat)
  : list (string * DOMRect.t) :=
  let aggLeft := LineState.aggLeft st in
  let aggTop := LineState.aggTop st in
  let aggRight := LineState.aggRight st in
  let aggBottom := LineState.aggBottom st in
  if Nat.ltb (LineState.lineStart st) endExclusive
     && isFinite aggLeft && isFinite aggTop && isFinite aggRight && isFinite aggBottom
  then
    let text := slice (LineState.lineStart st) endExclusive content in
    let width := max2 (ofZ 0) (sub aggRight aggLeft) in
    let height := max2 (ofZ 0) (sub aggBottom aggTop) in
    (LineState.segments st
       ++ [(text, DOMRect.mk aggLeft aggTop aggRight aggBottom width height)])%list
  else LineState.segments st.

(** One iteration of the [for] loop of [splitTextByVisualLines]. *)
Definition lineStep (content : string) (charRects : list DOMRect.t) (i : nat)
           (st : LineState.t) : LineState.t :=
  let rect := nth i charRects zeroRect in
  if strictEq (DOMRect.width rect) (ofZ 0) || strictEq (DOMRect.height rect) (ofZ 0)
  then st
  else
    let startLine (segments : list (string * DOMRect.t)) :=
      LineState.mk segments (Some (DOMRect.top rect)) i
                   (DOMRect.left rect) (DOMRect.top rect)
                   (DOMRect.right rect) (DOMRect.bottom rect) in
    match LineState.currentTop st with
    | None => startLine (LineState.segments st)
    | Some currentTop =>
        if gt (abs (sub (DOMRect.top rect) currentTop)) (Fin (1 # 2))
        then startLine (commitLine content st i)
        else LineState.mk (LineState.segments st) (Some currentTop)
                          (LineState.lineStart st)
                          (min2 (LineState.aggLeft st) (DOMRect.left rect))
                          (min2 (LineState.aggTop st) (DOMRect.top rect))
                          (max2 (LineState.aggRight st) (DOMRect.right rect))
                          (max2 (LineState.aggBottom st) (DOMRect.bottom rect))
    end.

Fixpoint lineLoop (content : string) (charRects : list DOMRect.t)
         (remaining i : nat) (st : LineState.t) : LineState.t :=
  match remaining with
  | O => st
  | S k => lineLoop content charRects k (S i) (lineStep content charRects i st)
  end.

Definition splitTextByVisualLines (content : string) (charRects : list DOMRect.t)
  : list (string * DOMRect.t) :=
  if negb (nonEmpty content) then []
  else
    let initial := LineState.mk [] None 0 (Inf true) (Inf true) (Inf false) (Inf false) in
    let final := lineLoop content charRects (String.length content) 0 initial in
    commitLine content final (String.length content).

(** *** Text nodes *)

(** The [lineSegments.forEach] of [collectTextNodes]. *)
Fixpoint pushLines (info : ElementInfo.t) (rootRect : DOMRect.t) (opacity : num)
         (payload : string -> TextPayload.t) (fontSize : num) (textAnchor : TextAnchor)
         (lineSegments : list (string * DOMRect.t))
         (results : list SimpleNode) (nodeCounter : nat)
  : list SimpleNode * nat :=
  match lineSegments with
  | [] => (results, nodeCounter)
  | (text, rect) :: rest =>
      if negb (nonEmpty (trim text))
         || strictEq (DOMRect.width rect) (ofZ 0)
         || strictEq (DOMRect.height rect) (ofZ 0)
      then pushLines info rootRect opacity payload fontSize textAnchor rest
                     results nodeCounter
      else
        let xPos :=
          match textAnchor with
          | AnchorMiddle =>
              add (sub (DOMRect.left rect) (DOMRect.left rootRect))
                  (div (DOMRect.width rect) (ofZ 2))
          | AnchorEnd => sub (DOMRect.right rect) (DOMRect.left rootRect)
          | AnchorStart => sub (DOMRect.left rect) (DOMRect.left rootRect)
          end in
        let lineHeightPx := DOMRect.height rect in
        let baselineOffset :=
          add (div (sub lineHeightPx fontSize) (ofZ 2))
              (mul fontSize (Fin (85 # 100))) in
        let yPos := add (sub (DOMRect.top rect) (DOMRect.top rootRect)) baselineOffset in
        let node :=
          TextNode (BaseNode.mk ("text-" ++ counterToString nodeCounter)
                                xPos yPos (DOMRect.width rect) (DOMRect.height rect)
                                opacity
                                (optionalClassName (ElementInfo.className info)))
                   (toLowerCase (ElementInfo.tagName info))
                   (payload text) in
        pushLines info rootRect opacity payload fontSize textAnchor rest
                  (results ++ [node])%list (S nodeCounter)
  end.

(** The [childNodes.forEach] of [collectTextNodes]. *)
Fixpoint collectTextNodes_loop (info : ElementInfo.t) (rootRect : DOMRect.t)
         (opacity : num) (childNodes : list DomNode)
         (results : list SimpleNode) (nodeCounter : nat)
  : list SimpleNode * nat :=
  match childNodes with
  | [] => (results, nodeCounter)
  | Text fullText charRects :: rest =>
      let style := ElementInfo.style info in
      let content := trim (collapseSpaces fullText) in
      if negb (nonEmpty content)
      then collectTextNodes_loop info rootRect opacity rest results nodeCounter
      else
        let c := parseColor (Style.color style) in
        let fontSize := parsePx (Style.fontSize style) (ofZ 16) in
        let fontFamily := sanitizeFontFamily (Style.fontFamily style) in
        let lineHeight := parseLineHeight (Style.lineHeight style) fontSize in
        let letterSpacing :=
          if String.eqb (Style.letterSpacing style) "normal" then ofZ 0
          else parsePx (Style.letterSpacing style) (ofZ 0) in
        let textAnchor := toTextAnchor (Style.textAlign style) in
        let lineSegments := splitTextByVisualLines fullText charRects in
        let payload (text : string) :=
          TextPayload.mk text (RgbaColor.color c) (RgbaColor.opacity c)
                         fontFamily fontSize (Style.fontWeight style)
                         (Style.fontStyle style) letterSpacing lineHeight
                         textAnchor in
        let '(results', nodeCounter') :=
          pushLines info rootRect opacity payload fontSize textAnchor
                    lineSegments results nodeCounter in
        collectTextNodes_loop info rootRect opacity rest results' nodeCounter'
  | _ :: rest =>
      collectTextNodes_loop info rootRect opacity rest results nodeCounter
  end.

Definition collectTextNodes (info : ElementInfo.t) (childNodes : list DomNode)
           (rootRect : DOMRect.t) (nodeCounter : nat) : list SimpleNode * nat :=
  let opacity := clampNumber (parseFloat (Style.opacity (ElementInfo.style info)))
                             (ofZ 1) in
  collectTextNodes_loop info rootRect opacity childNodes [] nodeCounter.

(** *** Icons *)

(** The own entries of the object literal [MATERIAL_SYMBOLS_PATHS]:
    name, path data, view box. *)
Definition MATERIAL_SYMBOLS_PATHS : list (string * (string * string)) :=
  [ ("dashboard", ("M13 9V3h8v6h-8zm-2 0H3V3h8v6zm2 2h8v10h-8V11zm-2 0v10H3V11h8z", "0 0 24 24"));
    ("calendar_month", ("M9 11H7v2h2v-2zm4 0h-2v2h2v-2zm4 0h-2v2h2v-2zm2-7h-1V2h-2v2H8V2H6v2H5c-1.11 0-1.99.9-1.99 2L3 20c0 1.1.89 2 2 2h14c1.1 0 2-.9 2-2V6c0-1.1-.9-2-2-2zm0 16H5V9h14v11z", "0 0 24 24"));
    ("bed", ("M7 13c1.66 0 3-1.34 3-3S8.66 7 7 7s-3 1.34-3 3 1.34 3 3 3zm12-6h-8v7H3V5H1v15h2v-3h18v3h2v-9c0-2.21-1.79-4-4-4z", "0 0 24 24"));
    ("bar_chart", ("M5 9.2h3V19H5V9.2zM10.6 5h2.8v14h-2.8V5zm5.6 8H19v6h-2.8v-6z", "0 0 24 24"));
    ("settings", ("M19.14 12.94c.04-.3.06-.61.06-.94 0-.32-.02-.64-.07-.94l2.03-1.58c.18-.14.23-.41.12-.61l-1.92-3.32c-.12-.22-.37-.29-.59-.22l-2.39.96c-.5-.38-1.03-.7-1.62-.94l-.36-2.54c-.04-.24-.24-.41-.48-.41h-3.84c-.24 0-.43.17-.47.41l-.36 2.54c-.59.24-1.13.57-1.62.94l-2.39-.96c-.22-.08-.47 0-.59.22L2.74 8.87c-.12.21-.08.47.12.61l2.03 1.58c-.05.3-.09.63-.09.94s.02.64.07.94l-2.03 1.58c-.18.14-.23.41-.12.61l1.92 3.32c.12.22.37.29.59.22l2.39-.96c.5.38 1.03.7 1.62.94l.36 2.54c.05.24.24.41.48.41h3.84c.24 0 .44-.17.47-.41l.36-2.54c.59-.24 1.13-.56 1.62-.94l2.39.96c.22.08.47 0 .59-.22l1.92-3.32c.12-.22.07-.47-.12-.61l-2.01-1.58zM12 15.6c-1.98 0-3.6-1.62-3.6-3.6s1.62-3.6 3.6-3.6 3.6 1.62 3.6 3.6-1.62 3.6-3.6 3.6z", "0 0 24 24"));
    ("help_center", ("M19 3H5c-1.1 0-2 .9-2 2v14c0 1.1.9 2 2 2h14c1.1 0 2-.9 2-2V5c0-1.1-.9-2-2-2zm-7 15h-2v-2h2v2zm1.07-7.75l-.9.92C11.45 11.9 11 12.5 11 14h-2v-.5c0-1.1.45-2.1 1.17-2.83l1.24-1.26c.37-.36.59-.86.59-1.41 0-1.1-.9-2-2-2s-2 .9-2 2H6c0-2.21 1.79-4 4-4s4 1.79 4 4c0 .88-.36 1.68-.93 2.25z", "0 0 24 24"));
    ("logout", ("M17 7l-1.41 1.41L18.17 11H8v2h10.17l-2.58 2.58L17 17l5-5zM4 5h8V3H4c-1.1 0-2 .9-2 2v14c0 1.1.9 2 2 2h8v-2H4V5z", "0 0 24 24"));
    ("search", ("M15.5 14h-.79l-.28-.27C15.41 12.59 16 11.11 16 9.5 16 5.91 13.09 3 9.5 3S3 5.91 3 9.5 5.91 16 9.5 16c1.61 0 3.09-.59 4.23-1.57l.27.28v.79l5 4.99L20.49 19l-4.99-5zm-6 0C7.01 14 5 11.99 5 9.5S7.01 5 9.5 5 14 7.01 14 9.5 11.99 14 9.5 14z", "0 0 24 24"));
    ("expand_more", ("M16.59 8.59L12 13.17 7.41 8.59 6 10l6 6 6-6z", "0 0 24 24"));
    ("add", ("M19 13h-6v6h-2v-6H5v-2h6V5h2v6h6v2z", "0 0 24 24"));
    ("edit", ("M3 17.25V21h3.75L17.81 9.94l-3.75-3.75L3 17.25zM20.71 7.04c.39-.39.39-1.02 0-1.41l-2.34-2.34c-.39-.39-1.02-.39-1.41 0l-1.83 1.83 3.75 3.75 1.83-1.83z", "0 0 24 24"));
    ("content_copy", ("M16 1H4c-1.1 0-2 .9-2 2v14h2V3h12V1zm3 4H8c-1.1 0-2 .9-2 2v14c0 1.1.9 2 2 2h11c1.1 0 2-.9 2-2V7c0-1.1-.9-2-2-2zm0 16H8V7h11v14z", "0 0 24 24"));
    ("delete", ("M6 19c0 1.1.9 2 2 2h8c1.1 0 2-.9 2-2V7H6v12zM19 4h-3.5l-1-1h-5l-1 1H5v2h14V4z", "0 0 24 24"));
    ("chevron_left", ("M15.41 7.41L14 6l-6 6 6 6 1.41-1.41L10.83 12z", "0 0 24 24"));
    ("chevron_right", ("M10 6L8.59 7.41 13.17 12l-4.58 4.59L10 18l6-6z", "0 0 24 24")) ].

(** The properties every object literal inherits from [Object.prototype].
    [MATERIAL_SYMBOLS_PATHS] is a plain object literal, so a property read
    on it finds these as well; each of them is a function or an object,
    hence truthy, and has neither a [path] nor a [viewBox] property. *)
Definition OBJECT_PROTOTYPE_KEYS : list string :=
  [ "constructor"; "__proto__"; "hasOwnProperty"; "isPrototypeOf";
    "propertyIsEnumerable"; "toLocaleString"; "toString"; "valueOf";
    "__defineGetter__"; "__defineSetter__"; "__lookupGetter__";
    "__lookupSetter__" ].

(** The value of the property read [MATERIAL_SYMBOLS_PATHS[iconName]]. *)
Inductive IconData : Type :=
| OwnEntry (path viewBox : string)
| InheritedProperty
| Undefined.

Fixpoint ownEntry (iconName : string) (table : list (string * (string * string)))
  : option (string * string) :=
  match table with
  | [] => None
  | (name, data) :: rest =>
      if String.eqb name iconName then Some data else ownEntry iconName rest
  end.

Definition lookupIcon (iconName : string) : IconData :=
  match ownEntry iconName MATERIAL_SYMBOLS_PATHS with
  | Some (path, viewBox) => OwnEntry path viewBox
  | None =>
      if existsb (String.eqb iconName) OBJECT_PROTOTYPE_KEYS
      then InheritedProperty else Undefined
  end.

(** [createIconNode]; the [console.warn] diagnostic of the unmapped case
    is not part of the result and is left out. *)
Definition createIconNode (info : ElementInfo.t) (childNodes : list DomNode)
           (rootRect : DOMRect.t) (nodeCounter : nat) : option SimpleNode * nat :=
  let style := ElementInfo.style info in
  let iconName := trim (textContent (Element info childNodes)) in
  let build (svgPath viewBox : option string) :=
    let rect := ElementInfo.rect info in
    if strictEq (DOMRect.width rect) (ofZ 0) || strictEq (DOMRect.height rect) (ofZ 0)
    then (None, nodeCounter)
    else
      let color := RgbaColor.color (parseColor (Style.color style)) in
      let opacity := clampNumber (parseFloat (Style.opacity style)) (ofZ 1) in
      (Some (IconNode (BaseNode.mk ("icon-" ++ counterToString nodeCounter)
                                   (sub (DOMRect.left rect) (DOMRect.left rootRect))
                                   (sub (DOMRect.top rect) (DOMRect.top rootRect))
                                   (DOMRect.width rect) (DOMRect.height rect)
                                   opacity
                                   (optionalClassName (ElementInfo.className info)))
                      (toLowerCase (ElementInfo.tagName info))
                      iconName color svgPath viewBox),
       S nodeCounter) in
  match lookupIcon iconName with
  | Undefined => (None, nodeCounter)
  | OwnEntry path viewBox => build (Some path) (Some viewBox)
  | InheritedProperty => build None None
  end.

(** *** Elements *)

(** The [Array.from(element.children).forEach] loop of
    [createNodeFromElement], given the recursive call [recur];
    [element.children] holds the element children only. *)
Definition forEachChild (recur : DomNode -> nat -> option SimpleNode * nat)
  : list DomNode -> list SimpleNode -> nat -> list SimpleNode * nat :=
  fix loop (l : list DomNode) (children : list SimpleNode) (counter : nat) :=
    match l with
    | [] => (children, counter)
    | child :: rest =>
        match child with
        | Element childInfo _ =>
            if negb (ElementInfo.isHTMLElement childInfo)
            then loop rest children counter
            else if isIgnoredTag (ElementInfo.tagName childInfo)
            then loop rest children counter
            else
              let '(childNode, counter') := recur child counter in
              match childNode with
              | Some node => loop rest (children ++ [node])%list counter'
              | None => loop rest children counter'
              end
        | _ => loop rest children counter
        end
    end.

(** The box node [createNodeFromElement] returns for an ordinary element,
    once its id and children are known. *)
Definition boxNodeOf (info : ElementInfo.t) (rootRect : DOMRect.t) (id : string)
           (children : list SimpleNode) : SimpleNode :=
  let rect := ElementInfo.rect info in
  let style := ElementInfo.style info in
  let opacity := clampNumber (parseFloat (Style.opacity style)) (ofZ 1) in
  let background := parseFill style in
  let borderRadius := parseBorderRadius style in
  let borders := parseBorders style in
  let shadows := parseBoxShadows style in
  let overflowHidden :=
    String.eqb (Style.overflow style) "hidden"
    || String.eqb (Style.overflowX style) "hidden"
    || String.eqb (Style.overflowY style) "hidden" in
  BoxNode (BaseNode.mk id
                       (sub (DOMRect.left rect) (DOMRect.left rootRect))
                       (sub (DOMRect.top rect) (DOMRect.top rootRect))
                       (DOMRect.width rect) (DOMRect.height rect)
                       opacity
                       (optionalClassName (ElementInfo.className info)))
          (toLowerCase (ElementInfo.tagName info))
          background borderRadius borders shadows overflowHidden
          children.

(** [element.id || `${element.tagName.toLowerCase()}-${nodeCounter++}`],
    with the counter after it. *)
Definition assignId (info : ElementInfo.t) (nodeCounter : nat) : string * nat :=
  if nonEmpty (ElementInfo.id info) then (ElementInfo.id info, nodeCounter)
  else (toLowerCase (ElementInfo.tagName info) ++ "-" ++ counterToString nodeCounter,
        S nodeCounter).

Fixpoint createNodeFromElement (element : DomNode) (rootRect : DOMRect.t)
         (allowHidden : bool) (nodeCounter : nat) {struct element}
  : option SimpleNode * nat :=
  match element with
  | Element info childNodes =>
      let rect := ElementInfo.rect info in
      if strictEq (DOMRect.width rect) (ofZ 0) || strictEq (DOMRect.height rect) (ofZ 0)
      then (None, nodeCounter)
      else
        let style := ElementInfo.style info in
        if negb allowHidden && negb (isRenderable style)
        then (None, nodeCounter)
        else if classListContains "material-symbols-outlined" (ElementInfo.className info)
        then createIconNode info childNodes rootRect nodeCounter
        else
          let '(id, counter1) := assignId info nodeCounter in
          let '(texts, counter2) := collectTextNodes info childNodes rootRect counter1 in
          let '(children, counter3) :=
            forEachChild
              (fun child counter =>
                 createNodeFromElement child rootRect allowHidden counter)
              childNodes texts counter2 in
          (Some (boxNodeOf info rootRect id children), counter3)
  | _ => (None, nodeCounter)
  end.

(** ** Document emitter *)

Inductive Outcome (A : Type) : Type :=
| Returned (value : A)
| Thrown (error : string).

Arguments Returned {A} value.
Arguments Thrown {A} error.

Module RenderContext.
Record t : Type := mk { defs : list string; gradientIndex : nat; filterIndex : nat }.
End RenderContext.

(** A double-quoted attribute value. *)
Definition quoted (value : string) : string :=
  str doubleQuote ++ value ++ str doubleQuote.

Definition escapeAttribute (value : string) : string :=
  replaceChar doubleQuote "&quot;" (replaceChar "&" "&amp;" value).

Definition escapeText (value : string) : string :=
  replaceChar ">" "&gt;" (replaceChar "<" "&lt;" (replaceChar "&" "&amp;" value)).

(** [s.replace(/pattern/g, by)] for a literal, non-empty pattern; [skip]
    counts the characters of the current match still to be dropped. *)
Fixpoint replaceLiteral (pattern by_ s : string) (skip : nat) : string :=
  match s with
  | EmptyString => EmptyString
  | String c r =>
      match skip with
      | S k => replaceLiteral pattern by_ r k
      | O =>
          if startsWith pattern s
          then by_ ++ replaceLiteral pattern by_ r (String.length pattern - 1)
          else String c (replaceLiteral pattern by_ r 0)
      end
  end.

Definition createStyleDef (css : string) : string :=
  let safeCss := replaceLiteral "]]>" "]]]]><![CDATA[>" css 0 in
  "<style type=" ++ quoted "text/css" ++ "><![CDATA[" ++ safeCss ++ "]]></style>".

Definition normalizeFontWeight (weight : string) : string :=
  let w := toLowerCase (trim weight) in
  if existsb (String.eqb w)
             ["100"; "200"; "300"; "400"; "500"; "600"; "700"; "800"; "900"]
  then "font-weight=" ++ quoted w
  else if String.eqb w "bold" then "font-weight=" ++ quoted "700"
  else if String.eqb w "normal" then "font-weight=" ++ quoted "400"
  else "font-weight=" ++ quoted (escapeAttribute weight).

Definition textAnchorToString (a : TextAnchor) : string :=
  match a with
  | AnchorStart => "start"
  | AnchorMiddle => "middle"
  | AnchorEnd => "end"
  end.

(** [s.replace(/0+$/, '')] *)
Definition stripTrailingZeros (s : string) : string :=
  strRev (dropWhile (fun c => Ascii.eqb c "0") (strRev s)).

(** [s.replace(/\.$/, '')] *)
Definition stripTrailingDot (s : string) : string :=
  if endsWith "." s then firstn_str (String.length s - 1) s else s.

Section Emitter.

(** What the engine supplies and the model of numbers cannot define:
    [Number::toString] on a value that is not an integer below 10^21 (the
    shortest digits that read back as the same binary64), and the
    trigonometric functions. *)
Variable engineToString : Q -> string.
Variable cos : num -> num.
Variable sin : num -> num.

(** [String(x)] and the rendering of [x] in a template literal. *)
Definition numberToString (x : num) : string :=
  match x with
  | NaN => "NaN"
  | Inf true => "Infinity"
  | Inf false => "-Infinity"
  | Fin q =>
      if isInteger x && Qlt_bool (Qabs q) (inject_Z (10 ^ 21))
      then integerToString 10 (Qfloor q)
      else engineToString q
  end.

(** [x.toFixed(3)] *)
Definition toFixed3 (x : num) : string :=
  match x with
  | Fin q =>
      if Qlt_bool (Qabs q) (inject_Z (10 ^ 21))
      then
        let n := Qfloor (Qabs q * inject_Z 1000 + (1 # 2))%Q in
        let m := padStart0 4 (naturalToString 10 (Z.to_N n)) in
        let k := String.length m in
        (if isNegQ q then "-" else EmptyString)
          ++ firstn_str (k - 3) m ++ "." ++ skipn_str (k - 3) m
      else numberToString x
  | _ => numberToString x
  end.

Definition formatNumber (value : num) : string :=
  let rounded := div (round (mul (add value EPSILON) (ofZ 1000))) (ofZ 1000) in
  if isInteger rounded then numberToString rounded
  else stripTrailingDot (stripTrailingZeros (toFixed3 rounded)).

Definition formatPercentage (value : num) : string :=
  numberToString (div (round (mul value (ofZ 10000))) (ofZ 100)) ++ "%".

Definition applyAlpha (hexColor : string) (alpha : num) : string :=
  if startsWith "#" hexColor && Nat.leb 7 (String.length hexColor)
  then
    let r := parseInt (slice 1 3 hexColor) 16 in
    let g := parseInt (slice 3 5 hexColor) 16 in
    let b := parseInt (slice 5 7 hexColor) 16 in
    "rgba(" ++ numberToString r ++ ", " ++ numberToString g ++ ", "
            ++ numberToString b ++ ", " ++ numberToString alpha ++ ")"
  else hexColor.

Definition resolveStroke (borders : option BorderSet.t) : string :=
  match borders with
  | None => EmptyString
  | Some borders =>
      let sides := [BorderSet.top borders; BorderSet.right borders;
                    BorderSet.bottom borders; BorderSet.left borders] in
      let widths := map BorderSide.width sides in
      let colors := map BorderSide.color sides in
      let opacities := map BorderSide.opacity sides in
      let width0 := BorderSide.width (BorderSet.top borders) in
      let color0 := BorderSide.color (BorderSet.top borders) in
      let opacity0 := BorderSide.opacity (BorderSet.top borders) in
      let uniformWidth := forallb (fun width => strictEq width width0) widths in
      let uniformColor := forallb (fun color => String.eqb color color0) colors in
      let uniformOpacity := forallb (fun opacity => strictEq opacity opacity0) opacities in
      if negb uniformWidth || negb uniformColor || negb uniformOpacity
      then EmptyString
      else if strictEq width0 (ofZ 0) then EmptyString
      else
        let strokeColor :=
          if strictEq opacity0 (ofZ 1) then color0 else applyAlpha color0 opacity0 in
        "stroke=" ++ quoted strokeColor
          ++ " stroke-width=" ++ quoted (formatNumber width0)
          ++ " shape-rendering=" ++ quoted "geometricPrecision"
  end.

Definition gradientVector (angle : num) : num * num * num * num :=
  let rad := div (mul angle PI) (ofZ 180) in
  let x := cos rad in
  let y := sin rad in
  let x1 := div (sub (ofZ 1) x) (ofZ 2) in
  let y1 := div (sub (ofZ 1) y) (ofZ 2) in
  let x2 := div (add (ofZ 1) x) (ofZ 2) in
  let y2 := div (add (ofZ 1) y) (ofZ 2) in
  (x1, y1, x2, y2).

Definition ensureGradient (gradient : LinearGradientFill.t) (context : RenderContext.t)
  : string * RenderContext.t :=
  let id := "gradient-" ++ counterToString (RenderContext.gradientIndex context) in
  let '(x1, y1, x2, y2) := gradientVector (LinearGradientFill.angle gradient) in
  let stops :=
    join EmptyString
         (map (fun stop =>
                 "<stop offset=" ++ quoted (formatPercentage (GradientStop.offset stop))
                   ++ " stop-color=" ++ quoted (GradientStop.color stop)
                   ++ " stop-opacity=" ++ quoted (formatNumber (GradientStop.opacity stop))
                   ++ " />")
              (LinearGradientFill.stops gradient)) in
  let def :=
    "<linearGradient id=" ++ quoted id
      ++ " gradientUnits=" ++ quoted "objectBoundingBox"
      ++ " x1=" ++ quoted (formatNumber x1) ++ " y1=" ++ quoted (formatNumber y1)
      ++ " x2=" ++ quoted (formatNumber x2) ++ " y2=" ++ quoted (formatNumber y2)
      ++ ">" ++ stops ++ "</linearGradient>" in
  (id, RenderContext.mk (RenderContext.defs context ++ [def])%list
                        (S (RenderContext.gradientIndex context))
                        (RenderContext.filterIndex context)).

Definition resolveFill (fill : option Fill) (context : RenderContext.t)
  : string * RenderContext.t :=
  match fill with
  | None => ("transparent", context)
  | Some (Solid fill) =>
      if strictEq (SolidFill.opacity fill) (ofZ 1)
      then (SolidFill.color fill, context)
      else (applyAlpha (SolidFill.color fill) (SolidFill.opacity fill), context)
  | Some (Gradient fill) =>
      let '(id, context') := ensureGradient fill context in
      ("url(#" ++ id ++ ")", context')
  end.

Definition resolveShadows (shadows : list BoxShadow.t) (context : RenderContext.t)
  : option string * RenderContext.t :=
  let usable := filter (fun shadow => negb (BoxShadow.inset shadow)) shadows in
  match usable with
  | [] => (None, context)
  | _ =>
      let id := "shadow-" ++ counterToString (RenderContext.filterIndex context) in
      let shadowContent :=
        join EmptyString
             (map (fun shadow =>
                     "<feDropShadow dx=" ++ quoted (formatNumber (BoxShadow.offsetX shadow))
                       ++ " dy=" ++ quoted (formatNumber (BoxShadow.offsetY shadow))
                       ++ " stdDeviation="
                       ++ quoted (formatNumber
                                    (div (max2 (BoxShadow.blur shadow) (ofZ 0)) (ofZ 2)))
                       ++ " flood-color=" ++ quoted (BoxShadow.color shadow)
                       ++ " flood-opacity="
                       ++ quoted (formatNumber (BoxShadow.opacity shadow))
                       ++ " />")
                  usable) in
      let def :=
        "<filter id=" ++ quoted id ++ " x=" ++ quoted "-50%" ++ " y=" ++ quoted "-50%"
          ++ " width=" ++ quoted "200%" ++ " height=" ++ quoted "200%"
          ++ " color-interpolation-filters=" ++ quoted "sRGB" ++ ">"
          ++ shadowContent ++ "</filter>" in
      (Some id, RenderContext.mk (RenderContext.defs context ++ [def])%list
                                 (RenderContext.gradientIndex context)
                                 (S (RenderContext.filterIndex context)))
  end.

(** The four radii [roundedRectPath] draws with. *)
Definition clampRadii (width height : num) (radii : BorderRadius.t) : BorderRadius.t :=
  let tl := min3 (BorderRadius.topLeft radii) (div width (ofZ 2)) (div height (ofZ 2)) in
  let tr := min3 (BorderRadius.topRight radii) (div width (ofZ 2)) (div height (ofZ 2)) in
  let br := min3 (BorderRadius.bottomRight radii) (div width (ofZ 2)) (div height (ofZ 2)) in
  let bl := min3 (BorderRadius.bottomLeft radii) (div width (ofZ 2)) (div height (ofZ 2)) in
  BorderRadius.mk tl tr br bl.

(** The path commands of [roundedRectPath], given the radii drawn. *)
Definition pathCommands (x y width height tl tr br bl : num) : list string :=
  [ "M " ++ formatNumber (add x tl) ++ " " ++ formatNumber y;
    "H " ++ formatNumber (sub (add x width) tr);
    "Q " ++ formatNumber (add x width) ++ " " ++ formatNumber y ++ " "
         ++ formatNumber (add x width) ++ " " ++ formatNumber (add y tr);
    "V " ++ formatNumber (sub (add y height) br);
    "Q " ++ formatNumber (add x width) ++ " " ++ formatNumber (add y height) ++ " "
         ++ formatNumber (sub (add x width) br) ++ " " ++ formatNumber (add y height);
    "H " ++ formatNumber (add x bl);
    "Q " ++ formatNumber x ++ " " ++ formatNumber (add y height) ++ " "
         ++ formatNumber x ++ " " ++ formatNumber (sub (add y height) bl);
    "V " ++ formatNumber (add y tl);
    "Q " ++ formatNumber x ++ " " ++ formatNumber y ++ " "
         ++ formatNumber (add x tl) ++ " " ++ formatNumber y;
    "Z" ].

Definition roundedRectPath (x y width height : num) (radii : BorderRadius.t) : string :=
  let tl := min3 (BorderRadius.topLeft radii) (div width (ofZ 2)) (div height (ofZ 2)) in
  let tr := min3 (BorderRadius.topRight radii) (div width (ofZ 2)) (div height (ofZ 2)) in
  let br := min3 (BorderRadius.bottomRight radii) (div width (ofZ 2)) (div height (ofZ 2)) in
  let bl := min3 (BorderRadius.bottomLeft radii) (div width (ofZ 2)) (div height (ofZ 2)) in
  join " " (pathCommands x y width height tl tr br bl).

Definition ensureClipPath (base : BaseNode.t) (borderRadius : BorderRadius.t)
           (context : RenderContext.t) : string * RenderContext.t :=
  let id := "clip-" ++ counterToString (RenderContext.filterIndex context) in
  let d := roundedRectPath (BaseNode.x base) (BaseNode.y base)
                           (BaseNode.width base) (BaseNode.height base)
                           borderRadius in
  let def :=
    "<clipPath id=" ++ quoted id ++ " clipPathUnits=" ++ quoted "userSpaceOnUse"
      ++ "><path d=" ++ quoted d ++ " /></clipPath>" in
  (id, RenderContext.mk (RenderContext.defs context ++ [def])%list
                        (RenderContext.gradientIndex context)
                        (S (RenderContext.filterIndex context))).

(** [node.className ? ` class="..."` : ''] *)
Definition classAttribute (className : option string) : string :=
  match className with
  | Some name =>
      if nonEmpty name then " class=" ++ quoted (escapeAttribute name)
      else EmptyString
  | None => EmptyString
  end.

Definition renderTextNode (base : BaseNode.t) (tagName : string) (text : TextPayload.t)
  : string :=
  let combinedOpacity := mul (BaseNode.opacity base) (TextPayload.opacity text) in
  let opacityAttr :=
    if negb (strictEq combinedOpacity (ofZ 1))
    then " fill-opacity=" ++ quoted (formatNumber combinedOpacity)
    else EmptyString in
  let letterSpacingAttr :=
    if truthy (TextPayload.letterSpacing text)
    then " letter-spacing=" ++ quoted (formatNumber (TextPayload.letterSpacing text))
    else EmptyString in
  let classAttr := classAttribute (BaseNode.className base) in
  let dataTagAttr := " data-tag=" ++ quoted (escapeAttribute tagName) in
  let fontWeightAttr := normalizeFontWeight (TextPayload.fontWeight text) in
  "<text x=" ++ quoted (formatNumber (BaseNode.x base))
    ++ " y=" ++ quoted (formatNumber (BaseNode.y base))
    ++ " font-family=" ++ quoted (escapeAttribute (TextPayload.fontFamily text))
    ++ " font-size=" ++ quoted (formatNumber (TextPayload.fontSize text))
    ++ " " ++ fontWeightAttr
    ++ " font-style=" ++ quoted (escapeAttribute (TextPayload.fontStyle text))
    ++ " text-anchor=" ++ quoted (textAnchorToString (TextPayload.textAnchor text))
    ++ " dominant-baseline=" ++ quoted "alphabetic"
    ++ " xml:space=" ++ quoted "preserve"
    ++ " fill=" ++ quoted (TextPayload.color text)
    ++ opacityAttr ++ letterSpacingAttr ++ classAttr ++ dataTagAttr ++ ">"
    ++ escapeText (TextPayload.content text) ++ "</text>".

(** [renderIconNode].  Calling [split] on an [undefined] view box throws a
    TypeError. *)
Definition renderIconNode (base : BaseNode.t) (tagName iconName color : string)
           (svgPath viewBox : option string) : Outcome string :=
  let opacityAttr :=
    if negb (strictEq (BaseNode.opacity base) (ofZ 1))
    then " opacity=" ++ quoted (formatNumber (BaseNode.opacity base))
    else EmptyString in
  let classAttr := classAttribute (BaseNode.className base) in
  let dataTagAttr := " data-tag=" ++ quoted (escapeAttribute tagName) in
  let dataIconAttr := " data-icon=" ++ quoted (escapeAttribute iconName) in
  match viewBox with
  | None => Thrown "TypeError: Cannot read properties of undefined (reading 'split')"
  | Some viewBox =>
      let viewBoxParts := map Number (splitChar " " viewBox) in
      let orDefault (part : option num) :=
        match part with
        | Some v => if truthy v then v else ofZ 24
        | None => ofZ 24
        end in
      let origWidth := orDefault (nth_error viewBoxParts 2) in
      let origHeight := orDefault (nth_error viewBoxParts 3) in
      let scaleX := div (BaseNode.width base) origWidth in
      let scaleY := div (BaseNode.height base) origHeight in
      let scale := min2 scaleX scaleY in
      let scaledWidth := mul origWidth scale in
      let scaledHeight := mul origHeight scale in
      let offsetX := add (BaseNode.x base)
                         (div (sub (BaseNode.width base) scaledWidth) (ofZ 2)) in
      let offsetY := add (BaseNode.y base)
                         (div (sub (BaseNode.height base) scaledHeight) (ofZ 2)) in
      Returned
        ("<g transform=" ++ quoted ("translate(" ++ formatNumber offsetX ++ ","
                                      ++ formatNumber offsetY ++ ") scale("
                                      ++ formatNumber scale ++ ")")
           ++ opacityAttr ++ classAttr ++ dataTagAttr ++ dataIconAttr
           ++ "><path d="
           ++ quoted (match svgPath with Some d => d | None => "undefined" end)
           ++ " fill=" ++ quoted color ++ "/></g>")
  end.

(** [nodes.map((child) => render(child, context))]: the children are
    rendered left to right, each in the context the previous one left. *)
Definition mapRender (render : SimpleNode -> RenderContext.t
                               -> Outcome (string * RenderContext.t))
  : list SimpleNode -> RenderContext.t -> Outcome (list string * RenderContext.t) :=
  fix go (nodes : list SimpleNode) (context : RenderContext.t) :=
    match nodes with
    | [] => Returned ([], context)
    | child :: rest =>
        match render child context with
        | Thrown e => Thrown e
        | Returned (s, context') =>
            match go rest context' with
            | Thrown e => Thrown e
            | Returned (l, context'') => Returned (s :: l, context'')
            end
        end
    end.

(** [renderBoxNode], given the rendering of its children. *)
Definition renderBoxNode (renderChildren : list SimpleNode -> RenderContext.t
                                           -> Outcome (list string * RenderContext.t))
           (base : BaseNode.t) (tagName : string) (background : option Fill)
           (borderRadius : BorderRadius.t) (borders : option BorderSet.t)
           (shadows : list BoxShadow.t) (overflowHidden : bool)
           (children : list SimpleNode) (context : RenderContext.t)
  : Outcome (string * RenderContext.t) :=
  let path := roundedRectPath (BaseNode.x base) (BaseNode.y base)
                              (BaseNode.width base) (BaseNode.height base)
                              borderRadius in
  let '(fillAttr, context1) := resolveFill background context in
  let strokeAttr := resolveStroke borders in
  let '(filterAttr, context2) := resolveShadows shadows context1 in
  let opacityAttr :=
    if negb (strictEq (BaseNode.opacity base) (ofZ 1))
    then " opacity=" ++ quoted (formatNumber (BaseNode.opacity base))
    else EmptyString in
  let classAttr := classAttribute (BaseNode.className base) in
  let dataTagAttr := " data-tag=" ++ quoted (escapeAttribute tagName) in
  let '(clipId, context3) :=
    if overflowHidden
    then let '(id, c) := ensureClipPath base borderRadius context2 in (Some id, c)
    else (None, context2) in
  let clipAttr :=
    match clipId with
    | Some id => " clip-path=" ++ quoted ("url(#" ++ id ++ ")")
    | None => EmptyString
    end in
  match renderChildren children context3 with
  | Thrown e => Thrown e
  | Returned (rendered, context4) =>
      let childrenContent := join EmptyString rendered in
      let filterString :=
        match filterAttr with
        | Some id => " filter=" ++ quoted ("url(#" ++ id ++ ")")
        | None => EmptyString
        end in
      let strokeString :=
        if nonEmpty strokeAttr then " " ++ strokeAttr else EmptyString in
      let shapeClassAttr := classAttribute (BaseNode.className base) in
      Returned
        ("<g" ++ opacityAttr ++ classAttr ++ dataTagAttr ++ clipAttr ++ ">"
           ++ "<path d=" ++ quoted path ++ " fill=" ++ quoted fillAttr
           ++ strokeString ++ filterString ++ shapeClassAttr ++ " />"
           ++ childrenContent ++ "</g>",
         context4)
  end.

Fixpoint renderNode (node : SimpleNode) (context : RenderContext.t) {struct node}
  : Outcome (string * RenderContext.t) :=
  match node with
  | TextNode base tagName text => Returned (renderTextNode base tagName text, context)
  | IconNode base tagName iconName color svgPath viewBox =>
      match renderIconNode base tagName iconName color svgPath viewBox with
      | Returned s => Returned (s, context)
      | Thrown e => Thrown e
      end
  | BoxNode base tagName background borderRadius borders shadows overflowHidden children =>
      renderBoxNode (mapRender renderNode) base tagName background borderRadius
                    borders shadows overflowHidden children context
  end.

(** [htmlToSvg(rootElement, options)]; [inlineCss] is [options.inlineCss].
    The second component is [nodeCounter] after the call. *)
Definition htmlToSvg (rootElement : option HTMLElement) (inlineCss : option string)
           (nodeCounter : nat) : Outcome string * nat :=
  match rootElement with
  | None => (Thrown "A root element is required to generate SVG.", nodeCounter)
  | Some (info, childNodes) =>
      let root := Element info childNodes in
      let rootRect := ElementInfo.rect info in
      if strictEq (DOMRect.width rootRect) (ofZ 0)
         || strictEq (DOMRect.height rootRect) (ofZ 0)
      then (Thrown "Root element has no measurable layout.", nodeCounter)
      else
        match createNodeFromElement root rootRect true nodeCounter with
        | (None, counter) =>
            (Thrown "Unable to capture layout from the provided HTML.", counter)
        | (Some simpleTree, counter) =>
            let context := RenderContext.mk [] 0 0 in
            match renderNode simpleTree context with
            | Thrown e => (Thrown e, counter)
            | Returned (content, context') =>
                let cssBlock := match inlineCss with
                                | Some css => trim css
                                | None => EmptyString
                                end in
                let styleDef :=
                  if nonEmpty cssBlock then Some (createStyleDef cssBlock) else None in
                let defsEntries :=
                  match styleDef with
                  | Some def => def :: RenderContext.defs context'
                  | None => RenderContext.defs context'
                  end in
                let defsContent :=
                  match defsEntries with
                  | [] => EmptyString
                  | _ => "<defs>" ++ join EmptyString defsEntries ++ "</defs>"
                  end in
                let width := formatNumber (DOMRect.width rootRect) in
                let height := formatNumber (DOMRect.height rootRect) in
                (Returned
                   ("<?xml version=" ++ quoted "1.0" ++ " encoding=" ++ quoted "UTF-8"
                      ++ "?><svg xmlns=" ++ quoted "http://www.w3.org/2000/svg"
                      ++ " width=" ++ quoted width ++ " height=" ++ quoted height
                      ++ " viewBox=" ++ quoted ("0 0 " ++ width ++ " " ++ height)
                      ++ " role=" ++ quoted "presentation" ++ ">"
                      ++ defsContent ++ content ++ "</svg>"),
                 counter)
            end
        end
  end.

End Emitter.

(** ** Vocabulary of the statements *)

(** *** Sample inputs *)

(** A computed style with the initial value of every property read. *)
Definition initialStyle : Style.t :=
  Style.mk "block" "visible" "1" "none" "rgba(0, 0, 0, 0)"
           "rgb(0, 0, 0)" "16px" "sans-serif" "normal" "normal" "start" "400" "normal"
           "visible" "visible" "visible"
           "0px" "0px" "0px" "0px"
           "0px" "none" "rgb(0, 0, 0)" "0px" "none" "rgb(0, 0, 0)"
           "0px" "none" "rgb(0, 0, 0)" "0px" "none" "rgb(0, 0, 0)"
           "none".

Definition withBackground (image color : string) (s : Style.t) : Style.t :=
  Style.mk (Style.display s) (Style.visibility s) (Style.opacity s) image color
           (Style.color s) (Style.fontSize s) (Style.fontFamily s) (Style.lineHeight s)
           (Style.letterSpacing s) (Style.textAlign s) (Style.fontWeight s)
           (Style.fontStyle s)
           (Style.overflow s) (Style.overflowX s) (Style.overflowY s)
           (Style.borderTopLeftRadius s) (Style.borderTopRightRadius s)
           (Style.borderBottomRightRadius s) (Style.borderBottomLeftRadius s)
           (Style.borderTopWidth s) (Style.borderTopStyle s) (Style.borderTopColor s)
           (Style.borderRightWidth s) (Style.borderRightStyle s) (Style.borderRightColor s)
           (Style.borderBottomWidth s) (Style.borderBottomStyle s)
           (Style.borderBottomColor s)
           (Style.borderLeftWidth s) (Style.borderLeftStyle s) (Style.borderLeftColor s)
           (Style.boxShadow s).


(** The rectangle with the given left, top, width and height. *)
Definition rectOf (l t w h : Z) : DOMRect.t :=
  DOMRect.mk (ofZ l) (ofZ t) (ofZ (l + w)) (ofZ (t + h)) (ofZ w) (ofZ h).

(** An engine numeral printer to run the emitter with, where a statement
    needs a concrete one. *)
Definition sampleToString (q : Q) : string := "?".

(** *** For C1 *)

(** The tree holds an icon node without a view box. *)
Fixpoint lacksViewBox (node : SimpleNode) : bool :=
  match node with
  | BoxNode _ _ _ _ _ _ _ children => existsb lacksViewBox children
  | TextNode _ _ _ => false
  | IconNode _ _ _ _ _ viewBox =>
      match viewBox with Some _ => false | None => true end
  end.

(** The names the icon-marked elements of a tree carry: the trimmed text
    of each. *)
Fixpoint iconNames (node : DomNode) : list string :=
  match node with
  | Element info childNodes =>
      ((if classListContains "material-symbols-outlined" (ElementInfo.className info)
        then [trim (textContent node)] else [])
         ++ flat_map iconNames childNodes)%list
  | _ => []
  end.

(** An icon-marked element whose text, [constructor], is no entry of the
    icon table but is a property every object inherits. *)
Definition iconNamedConstructor : DomNode :=
  Element (ElementInfo.mk true "SPAN" EmptyString "material-symbols-outlined"
                          (rectOf 10 10 24 24) initialStyle)
          [Text "constructor" []].

Definition rootWithInheritedIconName : HTMLElement :=
  (ElementInfo.mk true "DIV" "root" EmptyString (rectOf 0 0 100 50) initialStyle,
   [iconNamedConstructor]).

(** *** For C2 *)

(** The decimal numeral of a channel value. *)
Definition decimal (n : N) : string := naturalToString 10 n.

(** The two lower-case hexadecimal digits of a channel value. *)
Definition hexPair (n : N) : string :=
  String (digitChar (n / 16)) (String (digitChar (n mod 16)) EmptyString).

(** The value of a pair of hexadecimal digits. *)
Definition hexPairValue (c d : ascii) : N := (digitValue c * 16 + digitValue d)%N.

(** What follows the third channel of a color in function form. *)
Definition functionTail (alpha : option string) (w5 w6 : string) : string :=
  match alpha with
  | Some a => w5 ++ "," ++ w6 ++ a ++ ")"
  | None => ")"
  end.

(** The alpha text the pattern admits: digits and dots, at least one. *)
Definition alphaOk (alpha : option string) : Prop :=
  match alpha with
  | Some a => nonEmpty a = true /\ strAll isDigitOrDot a = true
  | None => True
  end.

(** A color in function form: [rgb] or [rgba], three decimal channels and
    an optional alpha, with the white space the pattern admits around the
    commas. *)
Definition colorFunction (withA : bool) (r g b : N) (alpha : option string)
           (w1 w2 w3 w4 w5 w6 : string) : string :=
  (if withA then "rgba(" else "rgb(")
    ++ decimal r ++ w1 ++ "," ++ w2 ++ decimal g ++ w3 ++ "," ++ w4 ++ decimal b
    ++ functionTail alpha w5 w6.

(** The check run on each channel value: its numeral is made of digits,
    and parsing, clamping and printing it gives its two hexadecimal
    digits. *)
Definition channelCheck (n : N) : bool :=
  String.eqb (padStart0 2 (toString16 (clampChannel (parseInt (decimal n) 10))))
             (hexPair n)
  && strAll isDigit (decimal n) && nonEmpty (decimal n).

(** The first character of [s] satisfies [p]. *)
Definition headSatisfies (p : ascii -> bool) (s : string) : bool :=
  match s with
  | String c _ => p c
  | EmptyString => false
  end.

(** *** For C4 and C5 *)

(** The top-level tokens of the first [linear-gradient(...)] of [value],
    as [parseLinearGradient] computes them. *)
Definition gradientTokens (value : string) : list string :=
  match extractLinearGradientSegment value with
  | Some segment =>
      splitGradientArgs
        (sliceDropLast (match indexOf "(" segment with Some i => i + 1 | None => 0 end)
                       segment)
  | None => []
  end.

(** The test [parseLinearGradient] applies to the first token. *)
Definition isAngleToken (token : string) : bool :=
  includes "deg" token || includes "rad" token || startsWith "to " token.

(** The tokens after the optional angle token. *)
Definition stopTokens (value : string) : list string :=
  match gradientTokens value with
  | [] => []
  | first :: rest => if isAngleToken first then rest else first :: rest
  end.

(** The usable stops: what [parseGradientStop] makes of the stop tokens. *)
Definition usableStops (value : string) : list GradientStop.t :=
  collectStops (stopTokens value) 0 (List.length (stopTokens value)).



(** *** For C6 *)




(** *** For C7 *)



(** The data-model invariant of a border side: a width that is at least 0
    and an opacity that is a number. *)
Definition wellFormedSide (s : BorderSide.t) : Prop :=
  le (ofZ 0) (BorderSide.width s) = true /\ isNaN (BorderSide.opacity s) = false.

Definition wellFormedBorderSet (b : BorderSet.t) : Prop :=
  wellFormedSide (BorderSet.top b) /\ wellFormedSide (BorderSet.right b)
  /\ wellFormedSide (BorderSet.bottom b) /\ wellFormedSide (BorderSet.left b).



(** *** For C8 *)

(** Radii far larger than the box they are declared on. *)
Definition pillRadii : BorderRadius.t :=
  BorderRadius.mk (ofZ 300) (ofZ 300) (ofZ 300) (ofZ 300).

(** *** For C9 *)




(** *** For C10 *)

(** A node tree with every [id] blanked: what is left of a snapshot once
    the identifiers drawn from [nodeCounter] are set aside. *)
Definition eraseBaseId (base : BaseNode.t) : BaseNode.t :=
  BaseNode.mk EmptyString (BaseNode.x base) (BaseNode.y base)
              (BaseNode.width base) (BaseNode.height base)
              (BaseNode.opacity base) (BaseNode.className base).

Fixpoint eraseIds (node : SimpleNode) : SimpleNode :=
  match node with
  | BoxNode base tagName background borderRadius borders shadows overflowHidden children =>
      BoxNode (eraseBaseId base) tagName background borderRadius borders shadows
              overflowHidden (map eraseIds children)
  | TextNode base tagName text => TextNode (eraseBaseId base) tagName text
  | IconNode base tagName iconName color svgPath viewBox =>
      IconNode (eraseBaseId base) tagName iconName color svgPath viewBox
  end.

(** An anonymous element (no [id] attribute) of size 30 by 20. *)
Definition anonymousBox : ElementInfo.t :=
  ElementInfo.mk true "DIV" EmptyString EmptyString (rectOf 5 5 30 20) initialStyle.

(** * Properties *)

(** ** Strings *)

Lemma append_nil_r (s : string) : s ++ EmptyString = s.
Proof. induction s as [|c r IH]; simpl; [reflexivity | now rewrite IH]. Qed.

Lemma append_assoc (a b c : string) : (a ++ b) ++ c = a ++ (b ++ c).
Proof. induction a as [|x a IH]; simpl; [reflexivity | now rewrite IH]. Qed.



Lemma strRev_aux_app (s acc : string) : strRev_aux s acc = strRev s ++ acc.
Proof.
  unfold strRev. revert acc.
  induction s as [|c r IH]; intros acc; [reflexivity|].
  cbn [strRev_aux]. rewrite IH, (IH (String c EmptyString)), append_assoc. reflexivity.
Qed.

Lemma strRev_cons (c : ascii) (s : string) : strRev (String c s) = strRev s ++ str c.
Proof. unfold strRev at 1. cbn [strRev_aux]. apply strRev_aux_app. Qed.

Lemma strRev_app (a b : string) : strRev (a ++ b) = strRev b ++ strRev a.
Proof.
  induction a as [|c a IH]; cbn [append].
  - now rewrite append_nil_r.
  - now rewrite !strRev_cons, IH, append_assoc.
Qed.

Lemma strRev_involutive (s : string) : strRev (strRev s) = s.
Proof.
  induction s as [|c r IH]; [reflexivity|].
  rewrite strRev_cons, strRev_app, IH. reflexivity.
Qed.

Lemma trimStart_head (s : string) : headSatisfies isSpace s = false -> trimStart s = s.
Proof. destruct s as [|c r]; [reflexivity|]. cbn. intros ->. reflexivity. Qed.

Lemma span_app (p : ascii -> bool) (a b : string) :
  strAll p a = true -> headSatisfies p b = false -> span p (a ++ b) = (a, b).
Proof.
  induction a as [|c a IH]; cbn [strAll append]; intros Ha Hb.
  - destruct b as [|d b]; [reflexivity|]. cbn in *. now rewrite Hb.
  - apply andb_true_iff in Ha. destruct Ha as [Hc Ha].
    cbn [span]. rewrite Hc, (IH Ha Hb). reflexivity.
Qed.

Lemma dropWhile_app (p : ascii -> bool) (a b : string) :
  strAll p a = true -> headSatisfies p b = false -> dropWhile p (a ++ b) = b.
Proof.
  induction a as [|c a IH]; cbn [strAll append]; intros Ha Hb.
  - destruct b as [|d b]; [reflexivity|]. cbn in *. now rewrite Hb.
  - apply andb_true_iff in Ha. destruct Ha as [Hc Ha].
    cbn [dropWhile]. rewrite Hc. now apply IH.
Qed.

Lemma many1_app (p : ascii -> bool) (a b : string) :
  nonEmpty a = true -> strAll p a = true -> headSatisfies p b = false ->
  many1 p (a ++ b) = Some (a, b).
Proof. intros Hne Ha Hb. unfold many1. rewrite span_app by assumption. now rewrite Hne. Qed.

Lemma headSatisfies_app (p : ascii -> bool) (a b : string) :
  nonEmpty a = true -> headSatisfies p (a ++ b) = headSatisfies p a.
Proof. destruct a; [discriminate | reflexivity]. Qed.

Lemma headSatisfies_all (p q : ascii -> bool) (a : string) :
  (forall c, p c = true -> q c = false) ->
  strAll p a = true -> headSatisfies q a = false.
Proof.
  intros Hpq. destruct a as [|c a]; [reflexivity|]. cbn.
  intros H. apply andb_true_iff in H. apply Hpq, H.
Qed.

(** The head of [w ++ rest] fails [q] when [w] is white space, white
    space fails [q], and the head of [rest] fails [q]. *)
Lemma head_after_spaces (q : ascii -> bool) (w rest : string) :
  (forall c, isSpace c = true -> q c = false) ->
  strAll isSpace w = true -> headSatisfies q rest = false ->
  headSatisfies q (w ++ rest) = false.
Proof.
  intros Hq Hw Hrest. destruct w as [|c w]; [exact Hrest|].
  cbn in *. apply andb_true_iff in Hw. apply Hq, Hw.
Qed.

Lemma prefix_refl_char (c : ascii) (r : string) :
  prefix (String c EmptyString) (String c r) = true.
Proof.
  cbn [prefix]. destruct (ascii_dec c c); [|contradiction].
  now destruct r.
Qed.

Lemma lit_char (c : ascii) (r : string) :
  lit (String c EmptyString) (String c r) = Some r.
Proof. unfold lit, startsWith. now rewrite prefix_refl_char. Qed.

Lemma lit_char_fails (c d : ascii) (r : string) :
  Ascii.eqb c d = false -> lit (String c EmptyString) (String d r) = None.
Proof.
  intros H. unfold lit, startsWith. cbn [prefix].
  destruct (ascii_dec c d) as [->|]; [|reflexivity].
  now rewrite Ascii.eqb_refl in H.
Qed.

Lemma commaSep_app (w1 w2 rest : string) :
  strAll isSpace w1 = true -> strAll isSpace w2 = true ->
  headSatisfies isSpace rest = false ->
  commaSep (w1 ++ "," ++ w2 ++ rest) = Some rest.
Proof.
  intros H1 H2 Hrest. unfold commaSep.
  rewrite dropWhile_app by (try assumption; reflexivity).
  change ("," ++ w2 ++ rest) with (String "," (w2 ++ rest)).
  rewrite (lit_char "," (w2 ++ rest)). cbn [bind].
  now rewrite dropWhile_app.
Qed.

Lemma commaSep_fails (c : ascii) (r : string) :
  isSpace c = false -> Ascii.eqb "," c = false -> commaSep (String c r) = None.
Proof.
  intros Hs Hc. unfold commaSep. cbn [dropWhile]. rewrite Hs.
  now rewrite (lit_char_fails "," c r Hc).
Qed.

(** ** Numbers: order and even offsets *)

Lemma le_Fin (p q : Q) : le (Fin p) (Fin q) = Qle_bool p q.
Proof. unfold le, lt, Qlt_bool. now rewrite negb_involutive. Qed.

Lemma le_Fin_iff (p q : Q) : le (Fin p) (Fin q) = true <-> (p <= q)%Q.
Proof. rewrite le_Fin. apply Qle_bool_iff. Qed.







(** ** Induction over trees *)

Lemma SimpleNode_induction (P : SimpleNode -> Prop) :
  (forall base tagName background borderRadius borders shadows overflowHidden children,
      Forall P children ->
      P (BoxNode base tagName background borderRadius borders shadows
                 overflowHidden children)) ->
  (forall base tagName text, P (TextNode base tagName text)) ->
  (forall base tagName iconName color svgPath viewBox,
      P (IconNode base tagName iconName color svgPath viewBox)) ->
  forall node, P node.
Proof.
  intros Hbox Htext Hicon.
  fix IH 1.
  intros [base tagName background borderRadius borders shadows overflowHidden children
         | base tagName text
         | base tagName iconName color svgPath viewBox].
  - apply Hbox. induction children as [|child rest IHrest];
      constructor; [apply IH | exact IHrest].
  - apply Htext.
  - apply Hicon.
Qed.

Lemma DomNode_induction (P : DomNode -> Prop) :
  (forall info childNodes, Forall P childNodes -> P (Element info childNodes)) ->
  (forall content charRects, P (Text content charRects)) ->
  (forall data, P (Comment data)) ->
  forall node, P node.
Proof.
  intros Helement Htext Hcomment.
  fix IH 1.
  intros [info childNodes | content charRects | data].
  - apply Helement. induction childNodes as [|child rest IHrest];
      constructor; [apply IH | exact IHrest].
  - apply Htext.
  - apply Hcomment.
Qed.

(** ** C1: when the entry point fails *)

Section EmitterFailures.

Variable engineToString : Q -> string.
Variable cos : num -> num.
Variable sin : num -> num.

Lemma mapRender_returns (l : list SimpleNode) :
  Forall (fun node =>
            forall context,
              (exists e, renderNode engineToString cos sin node context = Thrown e)
              <-> lacksViewBox node = true) l ->
  forall context,
    (exists e, mapRender (renderNode engineToString cos sin) l context = Thrown e)
    <-> existsb lacksViewBox l = true.
Proof.
  induction 1 as [|node rest Hnode _ IH]; intros context.
  - cbn. split; [intros [e H]; discriminate | discriminate].
  - cbn [mapRender existsb]. rewrite orb_true_iff.
    destruct (renderNode engineToString cos sin node context) as [[s context']|e] eqn:E.
    + assert (Hn : lacksViewBox node = false).
      { destruct (lacksViewBox node) eqn:L; [|reflexivity].
        destruct (proj2 (Hnode context) eq_refl) as [e He]. congruence. }
      rewrite Hn. specialize (IH context').
      destruct (mapRender _ rest context') as [[l' c']|e'].
      * split; [intros [e H]; discriminate|].
        intros [H | H]; [discriminate|]. apply IH in H. destruct H as [e H]. discriminate.
      * split; [intros _; right; apply IH; now exists e'|]. intros _. now exists e'.
    + split; [|intros _; now exists e].
      intros _. left. apply (Hnode context). now exists e.
Qed.

(** Rendering throws exactly on a tree that holds an icon node without a
    view box. *)
Lemma renderNode_throws_iff (node : SimpleNode) :
  forall context,
    (exists e, renderNode engineToString cos sin node context = Thrown e)
    <-> lacksViewBox node = true.
Proof.
  induction node as [base tagName background borderRadius borders shadows
                          overflowHidden children IH
                    | base tagName text
                    | base tagName iconName color svgPath viewBox]
    using SimpleNode_induction; intros context.
  - cbn [renderNode lacksViewBox]. unfold renderBoxNode.
    destruct (resolveFill engineToString cos sin background context) as [fillAttr c1].
    destruct (resolveShadows engineToString shadows c1) as [filterAttr c2].
    pose proof (mapRender_returns children IH) as Hmap.
    destruct overflowHidden.
    + destruct (ensureClipPath engineToString base borderRadius c2) as [id c3].
      specialize (Hmap c3).
      destruct (mapRender _ children c3) as [[rendered c4]|e].
      * split; [intros [e H]; discriminate|].
        intros H. apply Hmap in H. destruct H as [e H]. discriminate.
      * split; [intros _; apply Hmap; now exists e | intros _; now exists e].
    + specialize (Hmap c2).
      destruct (mapRender _ children c2) as [[rendered c4]|e].
      * split; [intros [e H]; discriminate|].
        intros H. apply Hmap in H. destruct H as [e H]. discriminate.
      * split; [intros _; apply Hmap; now exists e | intros _; now exists e].
  - cbn. split; [intros [e H]; discriminate | discriminate].
  - cbn [renderNode lacksViewBox]. unfold renderIconNode.
    destruct viewBox as [viewBox|].
    + split; [intros [e H]; discriminate | discriminate].
    + split; [reflexivity | intros _; eexists; reflexivity].
Qed.

(** The failures of [htmlToSvg]: the three it raises itself, and the
    TypeError of an icon node without a view box. *)
Lemma htmlToSvg_throws_iff (rootElement : option HTMLElement)
      (inlineCss : option string) (nodeCounter : nat) :
  (exists e, fst (htmlToSvg engineToString cos sin rootElement inlineCss nodeCounter)
             = Thrown e)
  <-> rootElement = None
      \/ exists info childNodes,
          rootElement = Some (info, childNodes)
          /\ (strictEq (DOMRect.width (ElementInfo.rect info)) (ofZ 0) = true
              \/ strictEq (DOMRect.height (ElementInfo.rect info)) (ofZ 0) = true
              \/ fst (createNodeFromElement (Element info childNodes)
                                            (ElementInfo.rect info) true nodeCounter)
                 = None
              \/ exists tree,
                  fst (createNodeFromElement (Element info childNodes)
                                             (ElementInfo.rect info) true nodeCounter)
                  = Some tree
                  /\ lacksViewBox tree = true).
Proof.
  destruct rootElement as [[info childNodes]|].
  2:{ split; [now left | intros _; eexists; reflexivity]. }
  unfold htmlToSvg.
  destruct (strictEq (DOMRect.width (ElementInfo.rect info)) (ofZ 0)) eqn:W.
  { cbn [orb fst]. split; [|intros _; eexists; reflexivity].
    intros _. right. exists info, childNodes. split; [reflexivity | now left]. }
  destruct (strictEq (DOMRect.height (ElementInfo.rect info)) (ofZ 0)) eqn:H.
  { cbn [orb fst]. split; [|intros _; eexists; reflexivity].
    intros _. right. exists info, childNodes. split; [reflexivity|]. right. left. exact H. }
  cbn [orb].
  destruct (createNodeFromElement (Element info childNodes) (ElementInfo.rect info)
                                  true nodeCounter) as [[tree|] counter] eqn:E.
  2:{ cbn [fst]. split; [|intros _; eexists; reflexivity].
      intros _. right. exists info, childNodes.
      split; [reflexivity|]. right. right. left. now rewrite E. }
  pose proof (renderNode_throws_iff tree (RenderContext.mk [] 0 0)) as Hrender.
  destruct (renderNode engineToString cos sin tree (RenderContext.mk [] 0 0))
    as [[content context]|e]; cbn [fst] in *.
  - split.
    + intros [e He]. discriminate.
    + intros [Hnone | (info' & childNodes' & Heq & Hcases)]; [discriminate|].
      injection Heq as <- <-.
      destruct Hcases as [Hw | [Hh | [Hn | (tree' & Ht & Hl)]]];
        [congruence | congruence | rewrite E in Hn; discriminate|].
      rewrite E in Ht. injection Ht as <-. apply Hrender in Hl. destruct Hl as [e He]. discriminate.
  - split; [|intros _; now exists e].
    intros _. right. exists info, childNodes. split; [reflexivity|].
    right. right. right. exists tree. split; [now rewrite E|].
    apply Hrender. now exists e.
Qed.

End EmitterFailures.

Lemma lookupIcon_inherited (iconName : string) :
  lookupIcon iconName = InheritedProperty -> In iconName OBJECT_PROTOTYPE_KEYS.
Proof.
  unfold lookupIcon.
  destruct (ownEntry iconName MATERIAL_SYMBOLS_PATHS) as [[path viewBox]|]; [discriminate|].
  destruct (existsb (String.eqb iconName) OBJECT_PROTOTYPE_KEYS) eqn:E; [|discriminate].
  intros _. apply existsb_exists in E. destruct E as (key & Hin & Heq).
  apply String.eqb_eq in Heq. now subst.
Qed.

Lemma createIconNode_lacksViewBox (info : ElementInfo.t) (childNodes : list DomNode)
      (rootRect : DOMRect.t) (counter counter' : nat) (node : SimpleNode) :
  createIconNode info childNodes rootRect counter = (Some node, counter') ->
  lacksViewBox node = true ->
  In (trim (textContent (Element info childNodes))) OBJECT_PROTOTYPE_KEYS.
Proof.
  unfold createIconNode.
  destruct (lookupIcon (trim (textContent (Element info childNodes)))) eqn:E;
    [| |discriminate];
    destruct (strictEq (DOMRect.width (ElementInfo.rect info)) (ofZ 0)
              || strictEq (DOMRect.height (ElementInfo.rect info)) (ofZ 0));
    try discriminate; intros H; injection H as <- _; cbn [lacksViewBox];
    [discriminate | intros _; now apply lookupIcon_inherited].
Qed.

Lemma pushLines_viewBoxes (info : ElementInfo.t) (rootRect : DOMRect.t) (opacity : num)
      (payload : string -> TextPayload.t) (fontSize : num) (textAnchor : TextAnchor)
      (lineSegments : list (string * DOMRect.t)) :
  forall results counter,
    existsb lacksViewBox results = false ->
    existsb lacksViewBox
            (fst (pushLines info rootRect opacity payload fontSize textAnchor
                            lineSegments results counter)) = false.
Proof.
  induction lineSegments as [|[text rect] rest IH]; intros results counter H; [exact H|].
  cbn [pushLines].
  destruct (negb (nonEmpty (trim text))
            || strictEq (DOMRect.width rect) (ofZ 0)
            || strictEq (DOMRect.height rect) (ofZ 0)); [now apply IH|].
  apply IH. rewrite existsb_app, H. reflexivity.
Qed.

Lemma collectTextNodes_viewBoxes (info : ElementInfo.t) (rootRect : DOMRect.t)
      (opacity : num) (childNodes : list DomNode) :
  forall results counter,
    existsb lacksViewBox results = false ->
    existsb lacksViewBox
            (fst (collectTextNodes_loop info rootRect opacity childNodes results counter))
    = false.
Proof.
  induction childNodes as [|child rest IH]; intros results counter H; [exact H|].
  destruct child as [info' childNodes' | fullText charRects | data];
    cbn [collectTextNodes_loop]; [now apply IH | | now apply IH].
  destruct (negb (nonEmpty (trim (collapseSpaces fullText)))); [now apply IH|].
  match goal with
  | |- context [pushLines ?i ?r ?o ?p ?f ?t ?ls results counter] =>
      pose proof (pushLines_viewBoxes i r o p f t ls results counter H) as Hpush;
      destruct (pushLines i r o p f t ls results counter) as [r1 k1]
  end.
  now apply IH.
Qed.

Lemma forEachChild_viewBoxes (recur : DomNode -> nat -> option SimpleNode * nat)
      (l : list DomNode) :
  forall children counter,
    existsb lacksViewBox (fst (forEachChild recur l children counter)) = true ->
    existsb lacksViewBox children = true
    \/ exists child k node k',
        In child l /\ recur child k = (Some node, k') /\ lacksViewBox node = true.
Proof.
  induction l as [|child rest IH]; intros children counter H; [now left|].
  assert (Hrest : forall ch k,
             existsb lacksViewBox (fst (forEachChild recur rest ch k)) = true ->
             existsb lacksViewBox ch = true
             \/ exists child0 k0 node k',
                 In child0 (child :: rest) /\ recur child0 k0 = (Some node, k')
                 /\ lacksViewBox node = true).
  { intros ch k Hk. destruct (IH ch k Hk) as [Hc | (c & k0 & n & k' & Hin & Hr & Hl)];
      [now left | right]. exists c, k0, n, k'. split; [now right | now split]. }
  destruct child as [childInfo childNodes | content charRects | data];
    cbn [forEachChild] in H; [| now apply (Hrest _ _ H) | now apply (Hrest _ _ H)].
  destruct (negb (ElementInfo.isHTMLElement childInfo)); [now apply (Hrest _ _ H)|].
  destruct (isIgnoredTag (ElementInfo.tagName childInfo)); [now apply (Hrest _ _ H)|].
  destruct (recur (Element childInfo childNodes) counter) as [[node|] k1] eqn:E;
    [|now apply (Hrest _ _ H)].
  destruct (Hrest _ _ H) as [Hc | Hc]; [|now right].
  rewrite existsb_app in Hc. apply orb_true_iff in Hc.
  destruct Hc as [Hc | Hc]; [now left|].
  cbn [existsb] in Hc. rewrite orb_false_r in Hc.
  right. exists (Element childInfo childNodes), counter, node, k1.
  split; [now left | now split].
Qed.

(** A snapshot holds an icon node without a view box only if an
    icon-marked element of the tree is named after an inherited
    property. *)
Lemma snapshot_lacksViewBox (element : DomNode) (rootRect : DOMRect.t)
      (allowHidden : bool) :
  forall counter counter' tree,
    createNodeFromElement element rootRect allowHidden counter = (Some tree, counter') ->
    lacksViewBox tree = true ->
    exists name, In name (iconNames element) /\ In name OBJECT_PROTOTYPE_KEYS.
Proof.
  induction element as [info childNodes IH | content charRects | data]
    using DomNode_induction; intros counter counter' tree;
    [|discriminate|discriminate].
  cbn [createNodeFromElement iconNames].
  destruct (strictEq (DOMRect.width (ElementInfo.rect info)) (ofZ 0)
            || strictEq (DOMRect.height (ElementInfo.rect info)) (ofZ 0));
    [discriminate|].
  destruct (negb allowHidden && negb (isRenderable (ElementInfo.style info)));
    [discriminate|].
  destruct (classListContains "material-symbols-outlined" (ElementInfo.className info)).
  - intros Hicon Hlacks.
    exists (trim (textContent (Element info childNodes))).
    split; [now left | exact (createIconNode_lacksViewBox _ _ _ _ _ _ Hicon Hlacks)].
  - destruct (assignId info counter) as [id k1].
    unfold collectTextNodes.
    match goal with
    | |- context [collectTextNodes_loop ?i ?r ?o ?c [] k1] =>
        pose proof (collectTextNodes_viewBoxes i r o c [] k1 eq_refl) as Htexts;
        destruct (collectTextNodes_loop i r o c [] k1) as [texts k2]
    end.
    cbn [fst] in Htexts.
    match goal with
    | |- context [forEachChild ?f childNodes texts k2] =>
        pose proof (forEachChild_viewBoxes f childNodes texts k2) as Hchildren;
        destruct (forEachChild f childNodes texts k2) as [children k3]
    end.
    cbn [fst] in Hchildren.
    intros H. injection H as <- _. unfold boxNodeOf. cbn [lacksViewBox].
    intros Hlacks. destruct (Hchildren Hlacks) as [Hc | (child & k & node & k' & Hin & Hr & Hl)];
      [congruence|].
    rewrite Forall_forall in IH.
    destruct (IH child Hin k k' node Hr Hl) as (name & Hname & Hkey).
    exists name. split; [|exact Hkey].
    cbn [app]. apply in_flat_map. now exists child.
Qed.

Section DocumentedFailures.

Variable engineToString : Q -> string.
Variable cos : num -> num.
Variable sin : num -> num.

(** On a tree none of whose icon-marked elements is named after an
    inherited property, [htmlToSvg] fails exactly in the three cases it
    raises itself. *)
Lemma htmlToSvg_throws_as_documented (info : ElementInfo.t) (childNodes : list DomNode)
      (inlineCss : option string) (nodeCounter : nat) :
  (forall name, In name (iconNames (Element info childNodes)) ->
                ~ In name OBJECT_PROTOTYPE_KEYS) ->
  (exists e, fst (htmlToSvg engineToString cos sin (Some (info, childNodes))
                            inlineCss nodeCounter) = Thrown e)
  <-> strictEq (DOMRect.width (ElementInfo.rect info)) (ofZ 0) = true
      \/ strictEq (DOMRect.height (ElementInfo.rect info)) (ofZ 0) = true
      \/ fst (createNodeFromElement (Element info childNodes)
                                    (ElementInfo.rect info) true nodeCounter) = None.
Proof.
  intros Hnames. rewrite htmlToSvg_throws_iff. split.
  - intros [H | (info' & childNodes' & Heq & Hcases)]; [discriminate|].
    injection Heq as <- <-.
    destruct Hcases as [H | [H | [H | (tree & Ht & Hl)]]];
      [now left | now (right; left) | now (right; right)|].
    exfalso.
    destruct (createNodeFromElement (Element info childNodes) (ElementInfo.rect info)
                                    true nodeCounter) as [o k] eqn:E.
    cbn [fst] in Ht. subst o.
    destruct (snapshot_lacksViewBox _ _ _ _ _ _ E Hl) as (name & Hin & Hkey).
    exact (Hnames name Hin Hkey).
  - intros Hcases. right. exists info, childNodes. split; [reflexivity|].
    destruct Hcases as [H | [H | H]];
      [now left | now (right; left) | now (right; right; left)].
Qed.

End DocumentedFailures.

(** C1 fails on the code at this input.  The root is present, its size is
    100 by 50 and the snapshot pass yields a node for it, yet the call
    throws: the text of the icon element, [constructor], names a property
    the icon table inherits from [Object.prototype], so [createIconNode]
    takes the look-up for a hit and builds an icon node without a view
    box, on which [renderIconNode] throws a TypeError. *)
Theorem htmlToSvg_throws_on_inherited_icon_name :
  forall (engineToString : Q -> string) (cos sin : num -> num) (nodeCounter : nat),
    strictEq (DOMRect.width (ElementInfo.rect (fst rootWithInheritedIconName))) (ofZ 0)
    = false
    /\ strictEq (DOMRect.height (ElementInfo.rect (fst rootWithInheritedIconName))) (ofZ 0)
       = false
    /\ fst (createNodeFromElement
              (Element (fst rootWithInheritedIconName) (snd rootWithInheritedIconName))
              (ElementInfo.rect (fst rootWithInheritedIconName)) true nodeCounter)
       <> None
    /\ fst (htmlToSvg engineToString cos sin (Some rootWithInheritedIconName) None
                      nodeCounter)
       = Thrown "TypeError: Cannot read properties of undefined (reading 'split')".
Proof.
  intros engineToString cos sin nodeCounter.
  split; [reflexivity|]. split; [reflexivity|].
  split; [cbn; discriminate|].
  cbn. reflexivity.
Qed.

(** ** C2: the color parser *)

(** Facts about character classes, by cases on the eight bits. *)

Lemma space_facts (c : ascii) :
  isSpace c = true -> isDigit c = false /\ isDigitOrDot c = false.
Proof.
  destruct c as [[] [] [] [] [] [] [] []]; intros H; try discriminate H; split; reflexivity.
Qed.

Lemma digitOrDot_not_space (c : ascii) : isDigitOrDot c = true -> isSpace c = false.
Proof.
  destruct c as [[] [] [] [] [] [] [] []]; intros H; try discriminate H; reflexivity.
Qed.

Lemma digit_facts (c : ascii) :
  isDigit c = true -> isSpace c = false /\ isDigitOrDot c = true.
Proof.
  destruct c as [[] [] [] [] [] [] [] []]; intros H; try discriminate H; split; reflexivity.
Qed.

Lemma hex_facts (c : ascii) :
  isHexDigit c = true ->
  isSpace c = false
  /\ Ascii.eqb (lowerChar c) "r" = false
  /\ Ascii.eqb c "-" = false /\ Ascii.eqb c "+" = false
  /\ Ascii.eqb c "x" = false /\ Ascii.eqb c "X" = false
  /\ isRadixDigit 16 c = true.
Proof.
  destruct c as [[] [] [] [] [] [] [] []]; intros H; try discriminate H;
    repeat split; reflexivity.
Qed.

(** Channel values, checked one by one from 0 to 255. *)

Lemma channel_facts (n : N) :
  (n <= 255)%N ->
  padStart0 2 (toString16 (clampChannel (parseInt (decimal n) 10))) = hexPair n
  /\ strAll isDigit (decimal n) = true
  /\ nonEmpty (decimal n) = true.
Proof.
  intros Hn.
  assert (Hall : forallb channelCheck (map N.of_nat (seq 0 256)) = true)
    by (vm_compute; reflexivity).
  rewrite forallb_forall in Hall.
  assert (Hin : In n (map N.of_nat (seq 0 256))).
  { apply in_map_iff. exists (N.to_nat n). split; [apply N2Nat.id|].
    apply in_seq. lia. }
  specialize (Hall n Hin). unfold channelCheck in Hall.
  apply andb_true_iff in Hall. destruct Hall as [Hall H3].
  apply andb_true_iff in Hall. destruct Hall as [H1 H2].
  apply String.eqb_eq in H1. now repeat split.
Qed.

(** The function form. *)

Lemma matchRgba_unfold (s : string) :
  matchRgba s = match matchRgbaAt s with
                | Some m => Some m
                | None => match s with
                          | EmptyString => None
                          | String _ r => matchRgba r
                          end
                end.
Proof. destruct s; reflexivity. Qed.

Lemma space_not_digit (c : ascii) : isSpace c = true -> isDigit c = false.
Proof. intros H. apply space_facts, H. Qed.

Lemma digit_not_space (c : ascii) : isDigit c = true -> isSpace c = false.
Proof. intros H. apply digit_facts, H. Qed.

Lemma head_digits_not_space (d rest : string) :
  nonEmpty d = true -> strAll isDigit d = true ->
  headSatisfies isSpace (d ++ rest) = false.
Proof.
  intros Hne Hd. rewrite headSatisfies_app by exact Hne.
  apply (headSatisfies_all isDigit); [exact digit_not_space | exact Hd].
Qed.

Lemma matchRgbaAt_body (d1 d2 d3 : string) (alpha : option string)
      (w1 w2 w3 w4 w5 w6 : string) :
  nonEmpty d1 = true -> strAll isDigit d1 = true ->
  nonEmpty d2 = true -> strAll isDigit d2 = true ->
  nonEmpty d3 = true -> strAll isDigit d3 = true ->
  strAll isSpace w1 = true -> strAll isSpace w2 = true ->
  strAll isSpace w3 = true -> strAll isSpace w4 = true ->
  strAll isSpace w5 = true -> strAll isSpace w6 = true ->
  alphaOk alpha ->
  forall withA : bool,
    matchRgbaAt ((if withA then "rgba(" else "rgb(")
                   ++ d1 ++ w1 ++ "," ++ w2 ++ d2 ++ w3 ++ "," ++ w4 ++ d3
                   ++ functionTail alpha w5 w6)
    = Some (d1, d2, d3, alpha).
Proof.
  intros N1 D1 N2 D2 N3 D3 S1 S2 S3 S4 S5 S6 Ha withA.
  set (t3 := d3 ++ functionTail alpha w5 w6).
  set (t2 := d2 ++ w3 ++ "," ++ w4 ++ t3).
  set (t1 := d1 ++ w1 ++ "," ++ w2 ++ t2).
  assert (Hstart : (r0 <- litCI "rgb" ((if withA then "rgba(" else "rgb(") ++ t1) ;;
                    lit "(" (optCI "a" r0)) = Some t1)
    by (destruct withA;
        [change (litCI "rgb" ("rgba(" ++ t1)) with (Some (String "a" (String "(" t1)))
        |change (litCI "rgb" ("rgb(" ++ t1)) with (Some (String "(" t1))];
        cbn [bind optCI]; apply lit_char).
  unfold matchRgbaAt.
  destruct (litCI "rgb" ((if withA then "rgba(" else "rgb(") ++ t1)) as [r0|];
    cbn [bind] in Hstart |- *; [|discriminate].
  rewrite Hstart. cbn [bind].
  unfold t1 at 1.
  rewrite (many1_app isDigit d1 _ N1 D1)
    by (apply head_after_spaces; [exact space_not_digit | exact S1 | reflexivity]).
  cbn [bind fst snd].
  rewrite (commaSep_app w1 w2 t2 S1 S2) by (now apply head_digits_not_space).
  cbn [bind]. unfold t2 at 1.
  rewrite (many1_app isDigit d2 _ N2 D2)
    by (apply head_after_spaces; [exact space_not_digit | exact S3 | reflexivity]).
  cbn [bind fst snd].
  rewrite (commaSep_app w3 w4 t3 S3 S4) by (now apply head_digits_not_space).
  cbn [bind]. unfold t3 at 1.
  destruct alpha as [a|]; cbn [functionTail alphaOk] in *.
  - destruct Ha as [Na Aa].
    rewrite (many1_app isDigit d3 _ N3 D3)
      by (apply head_after_spaces; [exact space_not_digit | exact S5 | reflexivity]).
    cbn [bind fst snd].
    rewrite (commaSep_app w5 w6 (a ++ ")") S5 S6).
    2:{ rewrite headSatisfies_app by exact Na.
        apply (headSatisfies_all isDigitOrDot);
          [exact digitOrDot_not_space | exact Aa]. }
    cbn [bind].
    rewrite (many1_app isDigitOrDot a ")" Na Aa) by reflexivity.
    cbn [bind fst snd]. rewrite (lit_char ")" EmptyString). reflexivity.
  - rewrite (many1_app isDigit d3 ")" N3 D3) by reflexivity.
    cbn [bind fst snd].
    rewrite (commaSep_fails ")" EmptyString) by reflexivity.
    cbn [bind]. rewrite (lit_char ")" EmptyString). reflexivity.
Qed.

Lemma trimEnd_head (s : string) :
  headSatisfies isSpace (strRev s) = false -> trimEnd s = s.
Proof.
  intros H. unfold trimEnd.
  assert (E : dropWhile isSpace (strRev s) = strRev s).
  { destruct (strRev s) as [|c r]; [reflexivity|]. cbn in *. now rewrite H. }
  rewrite E. apply strRev_involutive.
Qed.

Lemma trim_unchanged (s : string) :
  headSatisfies isSpace s = false -> headSatisfies isSpace (strRev s) = false ->
  trim s = s.
Proof.
  intros H1 H2. unfold trim. rewrite (trimStart_head s H1). now apply trimEnd_head.
Qed.

Lemma last_char_of_app (p : ascii -> bool) (a b : string) :
  nonEmpty b = true ->
  headSatisfies p (strRev (a ++ b)) = headSatisfies p (strRev b).
Proof.
  intros Hb. rewrite strRev_app. apply headSatisfies_app.
  destruct b as [|c b]; [discriminate|].
  rewrite strRev_cons. now destruct (strRev b).
Qed.

Lemma nonEmpty_app_r (a b : string) : nonEmpty b = true -> nonEmpty (a ++ b) = true.
Proof. destruct a; [trivial | reflexivity]. Qed.

Lemma functionTail_last (alpha : option string) (w5 w6 : string) :
  nonEmpty (functionTail alpha w5 w6) = true
  /\ headSatisfies isSpace (strRev (functionTail alpha w5 w6)) = false.
Proof.
  destruct alpha as [a|]; cbn [functionTail]; [|split; reflexivity].
  split.
  - repeat (apply nonEmpty_app_r). reflexivity.
  - repeat (rewrite last_char_of_app by (repeat (apply nonEmpty_app_r); reflexivity)).
    reflexivity.
Qed.

Lemma colorFunction_trim (withA : bool) (d1 d2 d3 : string) (alpha : option string)
      (w1 w2 w3 w4 w5 w6 : string) :
  let value := (if withA then "rgba(" else "rgb(")
                 ++ d1 ++ w1 ++ "," ++ w2 ++ d2 ++ w3 ++ "," ++ w4 ++ d3
                 ++ functionTail alpha w5 w6 in
  nonEmpty value = true /\ trim value = value.
Proof.
  intros value. destruct (functionTail_last alpha w5 w6) as [Hne Hlast].
  split; [destruct withA; reflexivity|].
  apply trim_unchanged; [destruct withA; reflexivity|].
  unfold value.
  repeat (rewrite last_char_of_app by (repeat (apply nonEmpty_app_r); exact Hne)).
  exact Hlast.
Qed.

Lemma parseColor_function (withA : bool) (r g b : N) (alpha : option string)
      (w1 w2 w3 w4 w5 w6 : string) :
  (r <= 255)%N -> (g <= 255)%N -> (b <= 255)%N ->
  strAll isSpace w1 = true -> strAll isSpace w2 = true ->
  strAll isSpace w3 = true -> strAll isSpace w4 = true ->
  strAll isSpace w5 = true -> strAll isSpace w6 = true ->
  alphaOk alpha ->
  parseColor (colorFunction withA r g b alpha w1 w2 w3 w4 w5 w6)
  = RgbaColor.mk ("#" ++ hexPair r ++ hexPair g ++ hexPair b)
                 (match alpha with
                  | Some a => clampNumber (parseFloat a) (ofZ 1)
                  | None => ofZ 1
                  end).
Proof.
  intros Hr Hg Hb S1 S2 S3 S4 S5 S6 Ha.
  destruct (channel_facts r Hr) as (Cr & Dr & Nr).
  destruct (channel_facts g Hg) as (Cg & Dg & Ng).
  destruct (channel_facts b Hb) as (Cb & Db & Nb).
  change (colorFunction withA r g b alpha w1 w2 w3 w4 w5 w6)
    with ((if withA then "rgba(" else "rgb(")
            ++ decimal r ++ w1 ++ "," ++ w2 ++ decimal g ++ w3 ++ "," ++ w4 ++ decimal b
            ++ functionTail alpha w5 w6).
  destruct (colorFunction_trim withA (decimal r) (decimal g) (decimal b) alpha
                               w1 w2 w3 w4 w5 w6) as [Hne Htrim].
  cbv zeta in Hne, Htrim.
  unfold parseColor. rewrite Hne. cbn [negb]. rewrite Htrim.
  rewrite matchRgba_unfold.
  rewrite (matchRgbaAt_body (decimal r) (decimal g) (decimal b) alpha
                            w1 w2 w3 w4 w5 w6) by assumption.
  unfold rgbToHex. rewrite Cr, Cg, Cb. reflexivity.
Qed.

(** The hexadecimal forms. *)

Lemma matchRgbaAt_not_r (c : ascii) (rest : string) :
  Ascii.eqb (lowerChar c) "r" = false -> matchRgbaAt (String c rest) = None.
Proof.
  intros H. unfold matchRgbaAt, litCI.
  cbn [String.length firstn_str toLowerCase strMap String.eqb]. now rewrite H.
Qed.

Lemma matchRgba_without_r (s : string) :
  strAll (fun c => negb (Ascii.eqb (lowerChar c) "r")) s = true -> matchRgba s = None.
Proof.
  induction s as [|c s IH]; [reflexivity|].
  cbn [strAll]. intros H. apply andb_true_iff in H. destruct H as [Hc Hs].
  rewrite matchRgba_unfold, matchRgbaAt_not_r by (now apply negb_true_iff).
  now apply IH.
Qed.

Lemma hex_without_r (h : string) :
  strAll isHexDigit h = true ->
  strAll (fun c => negb (Ascii.eqb (lowerChar c) "r")) (String "#" h) = true.
Proof.
  intros H. cbn [strAll]. apply andb_true_iff. split; [reflexivity|].
  induction h as [|c h IH]; [reflexivity|].
  cbn [strAll] in *. apply andb_true_iff in H. destruct H as [Hc Hh].
  apply andb_true_iff. split; [|now apply IH].
  apply negb_true_iff. apply (hex_facts c Hc).
Qed.

Lemma hex_trim (h : string) :
  nonEmpty h = true -> strAll isHexDigit h = true ->
  trim (String "#" h) = String "#" h.
Proof.
  intros Hne Hh. apply trim_unchanged; [reflexivity|].
  change (String "#" h) with ("#" ++ h).
  rewrite last_char_of_app by exact Hne.
  apply (headSatisfies_all isHexDigit); [intros c Hc; apply (hex_facts c Hc)|].
  clear Hne. unfold strRev.
  assert (G : forall a acc, strAll isHexDigit a = true -> strAll isHexDigit acc = true ->
                            strAll isHexDigit (strRev_aux a acc) = true).
  { induction a as [|c a IH]; intros acc Ha Hacc; [exact Hacc|].
    cbn [strAll strRev_aux] in *. apply andb_true_iff in Ha. destruct Ha as [Hc Ha].
    apply IH; [exact Ha|]. cbn [strAll]. now rewrite Hc. }
  now apply G.
Qed.

Lemma parseInt_hexPair (c d : ascii) :
  isHexDigit c = true -> isHexDigit d = true ->
  parseInt (String c (String d EmptyString)) 16 = ofN (hexPairValue c d).
Proof.
  intros Hc Hd.
  destruct (hex_facts c Hc) as (Sc & _ & Mc & Pc & _ & _ & Rc).
  destruct (hex_facts d Hd) as (_ & _ & _ & _ & Xd & XXd & Rd).
  unfold parseInt, trimStart. cbn [dropWhile]. rewrite Sc.
  unfold splitSign. rewrite Mc, Pc.
  assert (Hp : startsWith "0x" (String c (String d EmptyString))
               || startsWith "0X" (String c (String d EmptyString)) = false).
  { unfold startsWith. cbn [prefix].
    destruct (ascii_dec "0" c) as [_|_]; [|reflexivity].
    destruct (ascii_dec "x" d) as [<-|_]; [discriminate|].
    destruct (ascii_dec "X" d) as [<-|_]; [discriminate|]. reflexivity. }
  rewrite Hp. rewrite andb_false_r. cbn [span]. rewrite Rc, Rd. cbn [nonEmpty].
  unfold digitsValue, hexPairValue, ofN. cbn [digitsValue_aux].
  f_equal.
Qed.

Lemma parseColor_hex (h : string) (color : string) (opacity : num) :
  strAll isHexDigit h = true ->
  matchHex (String "#" h) = Some h ->
  (let normalized := normalizeHex h in
   "#" ++ slice 0 6 normalized = color
   /\ (if Nat.eqb (String.length normalized) 8
       then div (parseInt (sliceFrom 6 normalized) 16) (ofZ 255)
       else ofZ 1) = opacity) ->
  parseColor (String "#" h) = RgbaColor.mk color opacity.
Proof.
  intros Hh Hm [Hc Ho].
  assert (Hne : nonEmpty h = true).
  { destruct h; [|reflexivity]. discriminate Hm. }
  unfold parseColor. cbn [nonEmpty negb].
  rewrite (hex_trim h Hne Hh), (matchRgba_without_r _ (hex_without_r h Hh)), Hm.
  now rewrite Hc, Ho.
Qed.

Lemma parseColor_hex3 (c1 c2 c3 : ascii) :
  isHexDigit c1 = true -> isHexDigit c2 = true -> isHexDigit c3 = true ->
  parseColor (String "#" (String c1 (String c2 (String c3 EmptyString))))
  = RgbaColor.mk
      (String "#" (String c1 (String c1 (String c2 (String c2
         (String c3 (String c3 EmptyString)))))))
      (ofZ 1).
Proof.
  intros H1 H2 H3. apply parseColor_hex.
  - cbn [strAll]. now rewrite H1, H2, H3.
  - unfold matchHex. cbn [strAll String.length]. now rewrite H1, H2, H3.
  - cbn. split; [reflexivity|].
    change (parseInt "ff" 16) with (ofZ 255). reflexivity.
Qed.

Ltac hexNormalize :=
  cbv zeta; unfold normalizeHex;
  cbn [String.length Nat.eqb chars map join String.concat append str
       slice sliceFrom firstn_str skipn_str Nat.sub];
  unfold str.

Lemma parseColor_hex4 (c1 c2 c3 c4 : ascii) :
  isHexDigit c1 = true -> isHexDigit c2 = true -> isHexDigit c3 = true ->
  isHexDigit c4 = true ->
  parseColor (String "#" (String c1 (String c2 (String c3 (String c4 EmptyString)))))
  = RgbaColor.mk
      (String "#" (String c1 (String c1 (String c2 (String c2
         (String c3 (String c3 EmptyString)))))))
      (div (ofN (hexPairValue c4 c4)) (ofZ 255)).
Proof.
  intros H1 H2 H3 H4. apply parseColor_hex.
  - cbn [strAll]. now rewrite H1, H2, H3, H4.
  - unfold matchHex. cbn [strAll String.length]. now rewrite H1, H2, H3, H4.
  - hexNormalize. split; [reflexivity|]. now rewrite parseInt_hexPair.
Qed.

Lemma parseColor_hex6 (c1 c2 c3 c4 c5 c6 : ascii) :
  isHexDigit c1 = true -> isHexDigit c2 = true -> isHexDigit c3 = true ->
  isHexDigit c4 = true -> isHexDigit c5 = true -> isHexDigit c6 = true ->
  parseColor (String "#" (String c1 (String c2 (String c3 (String c4
                (String c5 (String c6 EmptyString)))))))
  = RgbaColor.mk
      (String "#" (String c1 (String c2 (String c3 (String c4
         (String c5 (String c6 EmptyString)))))))
      (ofZ 1).
Proof.
  intros H1 H2 H3 H4 H5 H6. apply parseColor_hex.
  - cbn [strAll]. now rewrite H1, H2, H3, H4, H5, H6.
  - unfold matchHex. cbn [strAll String.length]. now rewrite H1, H2, H3, H4, H5, H6.
  - hexNormalize. split; [reflexivity|].
    change (parseInt "ff" 16) with (ofZ 255). reflexivity.
Qed.

Lemma parseColor_hex8 (c1 c2 c3 c4 c5 c6 c7 c8 : ascii) :
  isHexDigit c1 = true -> isHexDigit c2 = true -> isHexDigit c3 = true ->
  isHexDigit c4 = true -> isHexDigit c5 = true -> isHexDigit c6 = true ->
  isHexDigit c7 = true -> isHexDigit c8 = true ->
  parseColor (String "#" (String c1 (String c2 (String c3 (String c4
                (String c5 (String c6 (String c7 (String c8 EmptyString)))))))))
  = RgbaColor.mk
      (String "#" (String c1 (String c2 (String c3 (String c4
         (String c5 (String c6 EmptyString)))))))
      (div (ofN (hexPairValue c7 c8)) (ofZ 255)).
Proof.
  intros H1 H2 H3 H4 H5 H6 H7 H8. apply parseColor_hex.
  - cbn [strAll]. now rewrite H1, H2, H3, H4, H5, H6, H7, H8.
  - unfold matchHex. cbn [strAll String.length].
    now rewrite H1, H2, H3, H4, H5, H6, H7, H8.
  - hexNormalize. split; [reflexivity|]. now rewrite parseInt_hexPair.
Qed.

(** C2.  [parseColor] turns every color in function form ([rgb] or
    [rgba], decimal channels from 0 to 255 separated by commas, an optional
    alpha of digits and dots) into [#] followed by the two hexadecimal
    digits of each channel, with the alpha as a separate opacity (1 when
    there is none); it turns [#RGB], [#RGBA], [#RRGGBB] and [#RRGGBBAA]
    into [#] and the six digits of the three channels, with opacity
    [AA/255] read from the alpha digits (1 when there are none).  So
    [#ff000080] gives [#ff0000] with opacity 128/255 and
    [rgba(255,0,0,0.5)] gives [#ff0000] with opacity 1/2; the empty input
    gives opaque black. *)
Theorem parseColor_normalizes :
  (forall (withA : bool) (r g b : N) (alpha : option string)
          (w1 w2 w3 w4 w5 w6 : string),
      (r <= 255)%N -> (g <= 255)%N -> (b <= 255)%N ->
      strAll isSpace w1 = true -> strAll isSpace w2 = true ->
      strAll isSpace w3 = true -> strAll isSpace w4 = true ->
      strAll isSpace w5 = true -> strAll isSpace w6 = true ->
      alphaOk alpha ->
      parseColor (colorFunction withA r g b alpha w1 w2 w3 w4 w5 w6)
      = RgbaColor.mk ("#" ++ hexPair r ++ hexPair g ++ hexPair b)
                     (match alpha with
                      | Some a => clampNumber (parseFloat a) (ofZ 1)
                      | None => ofZ 1
                      end))
  /\ (forall c1 c2 c3 : ascii,
         isHexDigit c1 = true -> isHexDigit c2 = true -> isHexDigit c3 = true ->
         parseColor (String "#" (String c1 (String c2 (String c3 EmptyString))))
         = RgbaColor.mk
             (String "#" (String c1 (String c1 (String c2 (String c2
                (String c3 (String c3 EmptyString)))))))
             (ofZ 1))
  /\ (forall c1 c2 c3 c4 : ascii,
         isHexDigit c1 = true -> isHexDigit c2 = true -> isHexDigit c3 = true ->
         isHexDigit c4 = true ->
         parseColor (String "#" (String c1 (String c2 (String c3
                       (String c4 EmptyString)))))
         = RgbaColor.mk
             (String "#" (String c1 (String c1 (String c2 (String c2
                (String c3 (String c3 EmptyString)))))))
             (div (ofN (hexPairValue c4 c4)) (ofZ 255)))
  /\ (forall c1 c2 c3 c4 c5 c6 : ascii,
         isHexDigit c1 = true -> isHexDigit c2 = true -> isHexDigit c3 = true ->
         isHexDigit c4 = true -> isHexDigit c5 = true -> isHexDigit c6 = true ->
         parseColor (String "#" (String c1 (String c2 (String c3 (String c4
                       (String c5 (String c6 EmptyString)))))))
         = RgbaColor.mk
             (String "#" (String c1 (String c2 (String c3 (String c4
                (String c5 (String c6 EmptyString)))))))
             (ofZ 1))
  /\ (forall c1 c2 c3 c4 c5 c6 c7 c8 : ascii,
         isHexDigit c1 = true -> isHexDigit c2 = true -> isHexDigit c3 = true ->
         isHexDigit c4 = true -> isHexDigit c5 = true -> isHexDigit c6 = true ->
         isHexDigit c7 = true -> isHexDigit c8 = true ->
         parseColor (String "#" (String c1 (String c2 (String c3 (String c4
                       (String c5 (String c6 (String c7 (String c8 EmptyString)))))))))
         = RgbaColor.mk
             (String "#" (String c1 (String c2 (String c3 (String c4
                (String c5 (String c6 EmptyString)))))))
             (div (ofN (hexPairValue c7 c8)) (ofZ 255)))
  /\ parseColor "#ff000080" = RgbaColor.mk "#ff0000" (Fin (128 # 255))
  /\ parseColor "rgba(255,0,0,0.5)" = RgbaColor.mk "#ff0000" (Fin (1 # 2))
  /\ parseColor EmptyString = RgbaColor.mk "#000000" (ofZ 1).
Proof.
  split; [exact parseColor_function|].
  split; [exact parseColor_hex3|].
  split; [exact parseColor_hex4|].
  split; [exact parseColor_hex6|].
  split; [exact parseColor_hex8|].
  repeat split; reflexivity.
Qed.

Lemma parseColor_normalizes_witness :
  ((255 <= 255)%N /\ (0 <= 255)%N /\ strAll isSpace " " = true
   /\ alphaOk (Some "0.5"))
  /\ parseColor "rgba(255, 0, 0, 0.5)" = RgbaColor.mk "#ff0000" (Fin (1 # 2)).
Proof.
  assert (Hs : strAll isSpace " " = true) by reflexivity.
  assert (He : strAll isSpace EmptyString = true) by reflexivity.
  assert (Ha : alphaOk (Some "0.5")) by (split; reflexivity).
  assert (H255 : (255 <= 255)%N) by (vm_compute; discriminate).
  assert (H0 : (0 <= 255)%N) by (vm_compute; discriminate).
  split; [repeat split; assumption|].
  exact (proj1 parseColor_normalizes true 255%N 0%N 0%N (Some "0.5")
               EmptyString " " EmptyString " " EmptyString " "
               H255 H0 H0 He Hs He Hs He Hs Ha).
Defined.

(** ** C3: the fill parser *)

Lemma parseLinearGradient_of_nothing :
  parseLinearGradient EmptyString = None /\ parseLinearGradient "none" = None.
Proof. split; reflexivity. Qed.

(** C3.  With a background-color reading [rgba(0, 0, 0, 0)] (the computed
    form of full transparency) or [transparent], and no gradient in the
    background-image, [parseFill] answers null; and a background-image that
    holds a parseable linear gradient is returned as the fill whatever the
    background-color. *)
Theorem parseFill_transparent_is_null_and_gradient_first :
  (forall style,
      (Style.backgroundColor style = "rgba(0, 0, 0, 0)"
       \/ Style.backgroundColor style = "transparent") ->
      parseLinearGradient (Style.backgroundImage style) = None ->
      parseFill style = None)
  /\ (forall style gradient,
         parseLinearGradient (Style.backgroundImage style) = Some gradient ->
         parseFill style = Some (Gradient gradient)).
Proof.
  split.
  - intros style Hcolor Hnone. unfold parseFill. rewrite Hnone.
    assert (Hc : nonEmpty (Style.backgroundColor style)
                 && negb (String.eqb (Style.backgroundColor style) "rgba(0, 0, 0, 0)")
                 && negb (String.eqb (Style.backgroundColor style) "transparent")
                 = false)
      by (destruct Hcolor as [-> | ->]; reflexivity).
    cbv zeta. rewrite Hc.
    now destruct (nonEmpty (Style.backgroundImage style)
                  && negb (String.eqb (Style.backgroundImage style) "none")).
  - intros style gradient Hg. unfold parseFill.
    destruct (Style.backgroundImage style) as [|c r] eqn:Eimg.
    + destruct parseLinearGradient_of_nothing as [H _]. rewrite H in Hg. discriminate.
    + rewrite <- Eimg in *. cbn [nonEmpty].
      destruct (String.eqb (Style.backgroundImage style) "none") eqn:En.
      * apply String.eqb_eq in En. rewrite En in Hg.
        destruct parseLinearGradient_of_nothing as [_ H]. rewrite H in Hg. discriminate.
      * rewrite Eimg at 1. cbn [nonEmpty andb negb]. now rewrite Hg.
Qed.

Lemma parseFill_transparent_is_null_and_gradient_first_witness :
  (Style.backgroundColor (withBackground "none" "transparent" initialStyle)
   = "rgba(0, 0, 0, 0)"
   \/ Style.backgroundColor (withBackground "none" "transparent" initialStyle)
      = "transparent")
  /\ parseLinearGradient
       (Style.backgroundImage (withBackground "none" "transparent" initialStyle))
     = None
  /\ parseFill (withBackground "none" "transparent" initialStyle) = None.
Proof.
  split; [right; reflexivity|].
  split; [reflexivity|].
  apply (proj1 parseFill_transparent_is_null_and_gradient_first).
  - right. reflexivity.
  - reflexivity.
Defined.

(** ** C4: the linear-gradient parser *)

Lemma parseLinearGradient_some (value : string) (g : LinearGradientFill.t) :
  parseLinearGradient value = Some g ->
  LinearGradientFill.stops g = usableStops value
  /\ 2 <= List.length (LinearGradientFill.stops g).
Proof.
  unfold parseLinearGradient, usableStops, stopTokens, gradientTokens, isAngleToken.
  destruct (extractLinearGradientSegment value) as [segment|]; cbn [bind];
    [|discriminate].
  destruct (splitGradientArgs _) as [|first rest]; [discriminate|].
  destruct (includes "deg" first || includes "rad" first || startsWith "to " first).
  - destruct (Nat.ltb (List.length (first :: rest) - 1) 2); [discriminate|].
    cbn [skipn].
    destruct (Nat.ltb (List.length (collectStops rest 0 (List.length rest))) 2) eqn:E;
      [discriminate|].
    intros H; injection H as <-. cbn [LinearGradientFill.stops].
    apply Nat.ltb_ge in E. split; [reflexivity | exact E].
  - destruct (Nat.ltb (List.length (first :: rest) - 0) 2); [discriminate|].
    cbn [skipn].
    destruct (Nat.ltb (List.length (collectStops (first :: rest) 0
                                                 (List.length (first :: rest)))) 2) eqn:E;
      [discriminate|].
    intros H; injection H as <-. cbn [LinearGradientFill.stops].
    apply Nat.ltb_ge in E. split; [reflexivity | exact E].
Qed.

(** C4.  [parseLinearGradient] reads [linear-gradient(45deg, red, blue)] as
    angle 45 with exactly the two stops red at offset 0 and blue at offset
    1; a value whose stop tokens (those after the optional angle token)
    yield fewer than two usable stops is answered by null, and a gradient
    that is returned carries all the usable stops, at least two. *)
Theorem parseLinearGradient_two_stops_or_null :
  parseLinearGradient "linear-gradient(45deg, red, blue)"
  = Some (LinearGradientFill.mk (ofZ 45)
            [GradientStop.mk "red" (ofZ 1) (ofZ 0);
             GradientStop.mk "blue" (ofZ 1) (ofZ 1)])
  /\ (forall value, List.length (usableStops value) < 2 ->
                    parseLinearGradient value = None)
  /\ (forall value g, parseLinearGradient value = Some g ->
                      LinearGradientFill.stops g = usableStops value
                      /\ 2 <= List.length (LinearGradientFill.stops g)).
Proof.
  split; [vm_compute; reflexivity|].
  split; [|exact parseLinearGradient_some].
  intros value Hfew.
  destruct (parseLinearGradient value) as [g|] eqn:E; [|reflexivity].
  destruct (parseLinearGradient_some _ _ E) as [Hs Hlen].
  rewrite Hs in Hlen. lia.
Qed.

Lemma parseLinearGradient_two_stops_or_null_witness :
  List.length (usableStops "linear-gradient(45deg, red)") < 2
  /\ parseLinearGradient "linear-gradient(45deg, red)" = None.
Proof.
  split.
  - vm_compute. lia.
  - apply (proj1 (proj2 parseLinearGradient_two_stops_or_null)).
    vm_compute. lia.
Defined.

(** ** C5: offsets of gradient stops *)












(** ** C6: what the snapshotter skips *)





(** ** Invariants of the parsed values

    The parsers establish the data-model invariants that the statements on
    strokes (C7) and on the rounded rectangle (C8) assume of their
    inputs. *)

Lemma clampNumber_not_NaN (value fallback : num) :
  isNaN fallback = false -> isNaN (clampNumber value fallback) = false.
Proof.
  intros H. unfold clampNumber. destruct value; cbn; try exact H. reflexivity.
Qed.

Lemma span_all (p : ascii -> bool) (s : string) : strAll p (fst (span p s)) = true.
Proof.
  induction s as [|c r IH]; [reflexivity|].
  cbn [span]. destruct (p c) eqn:E; [|reflexivity].
  destruct (span p r) as [a b]. cbn [fst strAll] in *. now rewrite E, IH.
Qed.

Lemma many1_head (p : ascii -> bool) (s a b : string) :
  many1 p s = Some (a, b) -> exists c r, a = String c r /\ p c = true.
Proof.
  unfold many1. pose proof (span_all p s) as Hall.
  destruct (span p s) as [a' b']. cbn [fst] in Hall.
  destruct a' as [|c r]; cbn [nonEmpty]; [discriminate|].
  intros H. injection H as <- <-. exists c, r. split; [reflexivity|].
  cbn [strAll] in Hall. now apply andb_true_iff in Hall.
Qed.

Lemma digit_signs (c : ascii) :
  isDigit c = true ->
  Ascii.eqb c "-" = false /\ Ascii.eqb c "+" = false /\ Ascii.eqb c "I" = false.
Proof.
  destruct c as [[] [] [] [] [] [] [] []]; intros H; try discriminate H;
    repeat split; reflexivity.
Qed.

Ltac scanDigits Hc :=
  let HI := fresh "HI" in
  let Hinf := fresh "Hinf" in
  destruct (digit_signs _ Hc) as (_ & _ & HI);
  match goal with
  | |- context [startsWith "Infinity" (String ?c ?r)] =>
      assert (Hinf : startsWith "Infinity" (String c r) = false)
        by (unfold startsWith; cbn [prefix];
            destruct (ascii_dec "I" c) as [<-|]; [discriminate | reflexivity]);
      rewrite Hinf; cbn [span]; rewrite Hc;
      destruct (span isDigit r) as [? ?]
  end;
  match goal with
  | |- context [let '(fp, r2) := ?X in _] => destruct X as [? ?r2]
  end;
  cbn [nonEmpty orb];
  match goal with
  | |- context [scanExponent ?r2] => destruct (scanExponent r2) as [? ?]
  end.

Lemma parseFloat_digit_head (c : ascii) (r : string) :
  isDigit c = true -> isNaN (parseFloat (String c r)) = false.
Proof.
  intros Hc. destruct (digit_facts c Hc) as [Hs _].
  destruct (digit_signs c Hc) as (Hm & Hp & _).
  unfold parseFloat, trimStart. cbn [dropWhile]. rewrite Hs.
  unfold scanStrDecimalLiteral, splitSign. rewrite Hm, Hp.
  scanDigits Hc. reflexivity.
Qed.

Lemma parseFloat_minus_digit_head (c : ascii) (r : string) :
  isDigit c = true -> isNaN (parseFloat (String "-" (String c r))) = false.
Proof.
  intros Hc.
  unfold parseFloat, trimStart. cbn [dropWhile].
  change (isSpace "-") with false. cbv iota.
  unfold scanStrDecimalLiteral, splitSign.
  change (Ascii.eqb "-" "-") with true. cbv iota.
  scanDigits Hc. reflexivity.
Qed.

Lemma matchPxAt_shape (s m : string) :
  matchPxAt s = Some m ->
  exists c r, isDigit c = true /\ (m = String c r \/ m = String "-" (String c r)).
Proof.
  unfold matchPxAt.
  set (sb := match s with
             | String c r => if Ascii.eqb c "-" then ("-", r) else (EmptyString, s)
             | EmptyString => (EmptyString, s)
             end).
  assert (Hsign : fst sb = "-" \/ fst sb = EmptyString).
  { unfold sb. destruct s as [|c r]; [now right|].
    destruct (Ascii.eqb c "-"); [now left | now right]. }
  destruct sb as [sign body]. cbn [fst] in Hsign.
  destruct (many1 isDigit body) as [[a b]|] eqn:Em; cbn [bind]; [|discriminate].
  destruct (many1_head _ _ _ _ Em) as (c & r & -> & Hc).
  cbn [fst snd].
  match goal with
  | |- context [let '(frac, rest) := ?X in _] => destruct X as [frac rest]
  end.
  destruct (lit "px" rest); cbn [bind]; [|discriminate].
  intros H. injection H as <-.
  exists c, (r ++ frac). split; [exact Hc|].
  destruct Hsign as [-> | ->]; [right | left]; reflexivity.
Qed.

Lemma matchPx_shape (s m : string) :
  matchPx s = Some m ->
  exists c r, isDigit c = true /\ (m = String c r \/ m = String "-" (String c r)).
Proof.
  induction s as [|c s IH]; cbn [matchPx].
  - destruct (matchPxAt EmptyString) eqn:E; [|discriminate].
    intros H. injection H as <-. now apply (matchPxAt_shape EmptyString).
  - destruct (matchPxAt (String c s)) eqn:E; [|exact IH].
    intros H. injection H as <-. now apply (matchPxAt_shape (String c s)).
Qed.

Lemma parsePx_not_NaN (value : string) (fallback : num) :
  isNaN fallback = false -> isNaN (parsePx value fallback) = false.
Proof.
  intros Hf. unfold parsePx.
  destruct (negb (nonEmpty value)); [exact Hf|].
  destruct (matchPx value) as [m|] eqn:E.
  - destruct (matchPx_shape _ _ E) as (c & r & Hc & [-> | ->]);
      [now apply parseFloat_digit_head | now apply parseFloat_minus_digit_head].
  - destruct (isNaN (parseFloat value)) eqn:N; [exact Hf | exact N].
Qed.

Lemma matchHex_some (s h : string) :
  matchHex s = Some h ->
  s = String "#" h /\ strAll isHexDigit h = true
  /\ (String.length h = 3 \/ String.length h = 4
      \/ String.length h = 6 \/ String.length h = 8).
Proof.
  unfold matchHex. destruct s as [|c h']; [discriminate|].
  destruct (Ascii.eqb_spec c "#") as [-> | _]; [|discriminate].
  destruct (strAll isHexDigit h') eqn:Hh; [|discriminate].
  cbn [andb].
  destruct (Nat.eqb_spec (String.length h') 3) as [E3|_];
    [intros H; injection H as <-; tauto|].
  destruct (Nat.eqb_spec (String.length h') 4) as [E4|_];
    [intros H; injection H as <-; tauto|].
  destruct (Nat.eqb_spec (String.length h') 6) as [E6|_];
    [intros H; injection H as <-; tauto|].
  destruct (Nat.eqb_spec (String.length h') 8) as [E8|_];
    [intros H; injection H as <-; tauto|].
  discriminate.
Qed.

Lemma div_255_not_NaN (n : N) : isNaN (div (ofN n) (ofZ 255)) = false.
Proof. reflexivity. Qed.

Lemma hex_opacity_not_NaN (h : string) :
  strAll isHexDigit h = true ->
  String.length h = 3 \/ String.length h = 4
  \/ String.length h = 6 \/ String.length h = 8 ->
  isNaN (if Nat.eqb (String.length (normalizeHex h)) 8
         then div (parseInt (sliceFrom 6 (normalizeHex h)) 16) (ofZ 255)
         else ofZ 1) = false.
Proof.
  intros Hh Hlen.
  destruct h as [|c1 [|c2 [|c3 [|c4 [|c5 [|c6 [|c7 [|c8 [|c9 h]]]]]]]]];
    cbn [String.length] in Hlen;
    try (exfalso; destruct Hlen as [H | [H | [H | H]]]; discriminate H);
    cbn [strAll] in Hh;
    repeat match type of Hh with
           | _ && _ = true => apply andb_true_iff in Hh; destruct Hh as [? Hh]
           end;
    hexNormalize;
    try (rewrite parseInt_hexPair by assumption; apply div_255_not_NaN);
    reflexivity.
Qed.

Lemma parseColor_opacity_not_NaN (value : string) :
  isNaN (RgbaColor.opacity (parseColor value)) = false.
Proof.
  unfold parseColor.
  destruct (negb (nonEmpty value)); [reflexivity|].
  destruct (matchRgba (trim value)) as [[[[m1 m2] m3] [alpha|]]|];
    cbn [RgbaColor.opacity]; [now apply clampNumber_not_NaN | reflexivity |].
  destruct (matchHex (trim value)) as [h|] eqn:E; cbn [RgbaColor.opacity];
    [|reflexivity].
  destruct (matchHex_some _ _ E) as (_ & Hh & Hlen).
  now apply hex_opacity_not_NaN.
Qed.

Lemma parseBorderSide_wellFormed (widthValue styleValue colorValue : string)
      (side : BorderSide.t) :
  parseBorderSide widthValue styleValue colorValue = Some side -> wellFormedSide side.
Proof.
  unfold parseBorderSide.
  pose proof (parsePx_not_NaN widthValue (ofZ 0) eq_refl) as Hw.
  destruct (le (parsePx widthValue (ofZ 0)) (ofZ 0)) eqn:L; [discriminate|].
  destruct (String.eqb styleValue "none"); [discriminate|].
  cbn [orb]. intros H. injection H as <-.
  split; cbn [BorderSide.width BorderSide.opacity];
    [|apply parseColor_opacity_not_NaN].
  destruct (parsePx widthValue (ofZ 0)) as [| s | q]; [discriminate | |].
  - destruct s; [reflexivity | discriminate].
  - unfold ofZ in *. rewrite le_Fin in L. apply le_Fin_iff.
    destruct (Qle_bool 0 q) eqn:E; [now apply Qle_bool_iff|].
    exfalso. assert (Hq : (q <= 0)%Q).
    { apply Qlt_le_weak. apply Qnot_le_lt. intros Hle.
      apply Qle_bool_iff in Hle. unfold Qle_bool in *. cbn in *. congruence. }
    apply Qle_bool_iff in Hq. congruence.
Qed.

(** The border sets [parseBorders] builds meet the data-model invariant
    that the statement on strokes assumes. *)
Lemma parseBorders_wellFormed (style : Style.t) (b : BorderSet.t) :
  parseBorders style = Some b -> wellFormedBorderSet b.
Proof.
  unfold parseBorders.
  pose proof (parseBorderSide_wellFormed (Style.borderTopWidth style)
                (Style.borderTopStyle style) (Style.borderTopColor style)) as Ht.
  pose proof (parseBorderSide_wellFormed (Style.borderRightWidth style)
                (Style.borderRightStyle style) (Style.borderRightColor style)) as Hr.
  pose proof (parseBorderSide_wellFormed (Style.borderBottomWidth style)
                (Style.borderBottomStyle style) (Style.borderBottomColor style)) as Hb.
  pose proof (parseBorderSide_wellFormed (Style.borderLeftWidth style)
                (Style.borderLeftStyle style) (Style.borderLeftColor style)) as Hl.
  destruct (parseBorderSide (Style.borderTopWidth style) _ _) as [t|];
    destruct (parseBorderSide (Style.borderRightWidth style) _ _) as [r|];
    destruct (parseBorderSide (Style.borderBottomWidth style) _ _) as [bo|];
    destruct (parseBorderSide (Style.borderLeftWidth style) _ _) as [l|];
    intros H; try discriminate H; injection H as <-;
    repeat split;
    cbn [BorderSet.top BorderSet.right BorderSet.bottom BorderSet.left];
    first [ apply (proj1 (Ht _ eq_refl)) | apply (proj2 (Ht _ eq_refl))
          | apply (proj1 (Hr _ eq_refl)) | apply (proj2 (Hr _ eq_refl))
          | apply (proj1 (Hb _ eq_refl)) | apply (proj2 (Hb _ eq_refl))
          | apply (proj1 (Hl _ eq_refl)) | apply (proj2 (Hl _ eq_refl))
          | reflexivity ].
Qed.

(** The radii [parseBorderRadius] reads are numbers, as the statement on
    the rounded rectangle assumes. *)
Lemma parseBorderRadius_not_NaN (style : Style.t) :
  isNaN (BorderRadius.topLeft (parseBorderRadius style)) = false
  /\ isNaN (BorderRadius.topRight (parseBorderRadius style)) = false
  /\ isNaN (BorderRadius.bottomRight (parseBorderRadius style)) = false
  /\ isNaN (BorderRadius.bottomLeft (parseBorderRadius style)) = false.
Proof.
  unfold parseBorderRadius.
  cbn [BorderRadius.topLeft BorderRadius.topRight BorderRadius.bottomRight
       BorderRadius.bottomLeft].
  repeat split;
    match goal with
    | |- context [if ?c then _ else _] => destruct c
    end; first [now apply parsePx_not_NaN | reflexivity].
Qed.

(** ** C7: the stroke of a box *)










(** ** C8: the radii of the rounded rectangle *)

Lemma le_refl_num (a : num) : isNaN a = false -> le a a = true.
Proof.
  destruct a as [| s | q]; intros H; [discriminate | now destruct s |].
  apply le_Fin_iff. apply Qle_refl.
Qed.

Lemma lt_le_weak (a b : num) : lt a b = true -> le a b = true.
Proof.
  destruct a as [| s | p], b as [| t | q]; try discriminate; cbn.
  - destruct s, t; try discriminate; reflexivity.
  - destruct s; [discriminate | reflexivity].
  - destruct t; [reflexivity | discriminate].
  - unfold Qlt_bool. rewrite negb_involutive, negb_true_iff.
    intros H. apply Qle_bool_iff. apply Qlt_le_weak. apply Qnot_le_lt.
    intros Hle. apply Qle_bool_iff in Hle. congruence.
Qed.

Lemma le_trans_num (a b c : num) : le a b = true -> le b c = true -> le a c = true.
Proof.
  destruct a as [| s | p], b as [| t | q], c as [| u | r]; try discriminate;
    try (destruct s); try (destruct t); try (destruct u);
    try discriminate; try reflexivity.
  rewrite !le_Fin_iff. apply Qle_trans.
Qed.

Lemma min2_not_NaN (a b : num) :
  isNaN a = false -> isNaN b = false -> isNaN (min2 a b) = false.
Proof.
  destruct a, b; try discriminate; intros _ _; unfold min2;
    match goal with |- context [if ?c then _ else _] => destruct c end; reflexivity.
Qed.

Lemma min2_le_l (a b : num) :
  isNaN a = false -> isNaN b = false -> le (min2 a b) a = true.
Proof.
  intros Ha Hb.
  assert (E : min2 a b = if lt b a then b else a)
    by (destruct a, b; try discriminate; reflexivity).
  rewrite E. destruct (lt b a) eqn:L; [now apply lt_le_weak | now apply le_refl_num].
Qed.

Lemma min2_le_r (a b : num) :
  isNaN a = false -> isNaN b = false -> le (min2 a b) b = true.
Proof.
  intros Ha Hb.
  assert (E : min2 a b = if lt b a then b else a)
    by (destruct a, b; try discriminate; reflexivity).
  rewrite E. destruct (lt b a) eqn:L; [now apply le_refl_num|].
  destruct a, b; try discriminate; cbn [le]; now rewrite L.
Qed.

Lemma min2_ge (z a b : num) :
  le z a = true -> le z b = true -> le z (min2 a b) = true.
Proof.
  intros Ha Hb.
  assert (E : min2 a b = if lt b a then b else a)
    by (destruct a, b; try reflexivity; destruct z; discriminate).
  rewrite E. now destruct (lt b a).
Qed.

Lemma div_two_not_NaN (w : num) : isNaN w = false -> isNaN (div w (ofZ 2)) = false.
Proof. destruct w; [discriminate | reflexivity | reflexivity]. Qed.

Lemma half_nonneg (w : num) : le (ofZ 0) w = true -> le (ofZ 0) (div w (ofZ 2)) = true.
Proof.
  destruct w as [| s | q]; [discriminate | now destruct s |].
  unfold ofZ. rewrite le_Fin_iff. intros Hq.
  cbn [div isZeroQ Qeq_bool Z.eqb Z.mul Pos.mul]. unfold fin. cbn -[Qred Qdiv].
  apply le_Fin_iff. rewrite Qred_correct.
  apply Qle_shift_div_l; [reflexivity|]. now rewrite Qmult_0_l.
Qed.

Lemma half_sum_le (w : num) :
  le (ofZ 0) w = true -> le (add (div w (ofZ 2)) (div w (ofZ 2))) w = true.
Proof.
  destruct w as [| s | q]; [discriminate | now destruct s |].
  intros _. cbn -[Qred Qdiv Qplus]. unfold fin.
  apply le_Fin_iff. rewrite !Qred_correct.
  setoid_replace (q / (2 # 1) + q / (2 # 1))%Q with q by field.
  apply Qle_refl.
Qed.

Lemma add_le_mono_nonneg (a b c d : num) :
  le (ofZ 0) a = true -> le (ofZ 0) c = true ->
  le a b = true -> le c d = true ->
  le (add a c) (add b d) = true.
Proof.
  destruct a as [| s | p]; [discriminate | destruct s; [|discriminate] |];
    (destruct c as [| u | r]; [discriminate | destruct u; [|discriminate] |]);
    (destruct b as [| t | q]; [discriminate | destruct t |]);
    (destruct d as [| v | x]; [discriminate | destruct v |]);
    try discriminate; try reflexivity.
  unfold ofZ. rewrite !le_Fin_iff. intros _ _ H1 H2.
  cbn [add]. unfold fin. apply le_Fin_iff. rewrite !Qred_correct.
  now apply Qplus_le_compat.
Qed.

Lemma corner_pair_fits (a b w : num) :
  le (ofZ 0) w = true ->
  le (ofZ 0) a = true -> le (ofZ 0) b = true ->
  le a (div w (ofZ 2)) = true -> le b (div w (ofZ 2)) = true ->
  le (add a b) w = true.
Proof.
  intros Hw Ha Hb Hah Hbh.
  apply le_trans_num with (b := add (div w (ofZ 2)) (div w (ofZ 2))).
  - now apply add_le_mono_nonneg.
  - now apply half_sum_le.
Qed.

Lemma min3_clamp (r w h : num) :
  isNaN r = false -> isNaN w = false -> isNaN h = false ->
  le (min3 r (div w (ofZ 2)) (div h (ofZ 2))) (div w (ofZ 2)) = true
  /\ le (min3 r (div w (ofZ 2)) (div h (ofZ 2))) (div h (ofZ 2)) = true
  /\ le (min3 r (div w (ofZ 2)) (div h (ofZ 2))) r = true.
Proof.
  intros Hr Hw Hh. unfold min3.
  pose proof (div_two_not_NaN _ Hw) as Hw2.
  pose proof (div_two_not_NaN _ Hh) as Hh2.
  pose proof (min2_not_NaN _ _ Hr Hw2) as Hm.
  split; [|split].
  - apply le_trans_num with (b := min2 r (div w (ofZ 2)));
      [now apply min2_le_l | now apply min2_le_r].
  - now apply min2_le_r.
  - apply le_trans_num with (b := min2 r (div w (ofZ 2)));
      [now apply min2_le_l | now apply min2_le_l].
Qed.

Lemma min3_nonneg (r w h : num) :
  le (ofZ 0) r = true -> le (ofZ 0) w = true -> le (ofZ 0) h = true ->
  le (ofZ 0) (min3 r (div w (ofZ 2)) (div h (ofZ 2))) = true.
Proof.
  intros Hr Hw Hh. unfold min3.
  apply min2_ge; [apply min2_ge|]; [exact Hr | now apply half_nonneg | now apply half_nonneg].
Qed.

(** C8.  For numbers that are not NaN, each radius [roundedRectPath] draws
    with is [min(declared, width/2, height/2)], so it exceeds neither half
    of the width nor half of the height, whatever the two dimensions are.
    When the dimensions and the declared radii are non-negative, the drawn
    radii are non-negative and the two corners on each edge fit the edge
    (their radii add up to at most its length), so no edge of the path
    folds back over itself. *)
Theorem roundedRectPath_clamps_radii :
  forall (engineToString : Q -> string) (x y width height : num) (radii : BorderRadius.t),
    isNaN width = false -> isNaN height = false ->
    isNaN (BorderRadius.topLeft radii) = false ->
    isNaN (BorderRadius.topRight radii) = false ->
    isNaN (BorderRadius.bottomRight radii) = false ->
    isNaN (BorderRadius.bottomLeft radii) = false ->
    let halfW := div width (ofZ 2) in
    let halfH := div height (ofZ 2) in
    let tl := min3 (BorderRadius.topLeft radii) halfW halfH in
    let tr := min3 (BorderRadius.topRight radii) halfW halfH in
    let br := min3 (BorderRadius.bottomRight radii) halfW halfH in
    let bl := min3 (BorderRadius.bottomLeft radii) halfW halfH in
    roundedRectPath engineToString x y width height radii
    = join " " (pathCommands engineToString x y width height tl tr br bl)
    /\ (le tl halfW = true /\ le tl halfH = true)
    /\ (le tr halfW = true /\ le tr halfH = true)
    /\ (le br halfW = true /\ le br halfH = true)
    /\ (le bl halfW = true /\ le bl halfH = true)
    /\ (le (ofZ 0) width = true -> le (ofZ 0) height = true ->
        le (ofZ 0) (BorderRadius.topLeft radii) = true ->
        le (ofZ 0) (BorderRadius.topRight radii) = true ->
        le (ofZ 0) (BorderRadius.bottomRight radii) = true ->
        le (ofZ 0) (BorderRadius.bottomLeft radii) = true ->
        (le (ofZ 0) tl = true /\ le (ofZ 0) tr = true
         /\ le (ofZ 0) br = true /\ le (ofZ 0) bl = true)
        /\ le (add tl tr) width = true
        /\ le (add tr br) height = true
        /\ le (add br bl) width = true
        /\ le (add bl tl) height = true).
Proof.
  intros engineToString x y width height radii Hw Hh Htl Htr Hbr Hbl
         halfW halfH tl tr br bl.
  destruct (min3_clamp _ _ _ Htl Hw Hh) as (A1 & A2 & _).
  destruct (min3_clamp _ _ _ Htr Hw Hh) as (B1 & B2 & _).
  destruct (min3_clamp _ _ _ Hbr Hw Hh) as (C1 & C2 & _).
  destruct (min3_clamp _ _ _ Hbl Hw Hh) as (D1 & D2 & _).
  split; [reflexivity|].
  split; [now split|]. split; [now split|]. split; [now split|]. split; [now split|].
  intros Pw Ph Ptl Ptr Pbr Pbl.
  pose proof (min3_nonneg _ _ _ Ptl Pw Ph) as N1.
  pose proof (min3_nonneg _ _ _ Ptr Pw Ph) as N2.
  pose proof (min3_nonneg _ _ _ Pbr Pw Ph) as N3.
  pose proof (min3_nonneg _ _ _ Pbl Pw Ph) as N4.
  split; [repeat split; assumption|].
  split; [now apply corner_pair_fits|].
  split; [now apply corner_pair_fits|].
  split; now apply corner_pair_fits.
Qed.

Lemma roundedRectPath_clamps_radii_witness :
  isNaN (ofZ 10) = false /\ isNaN (ofZ 4) = false /\ isNaN (ofZ 300) = false
  /\ le (min3 (ofZ 300) (div (ofZ 10) (ofZ 2)) (div (ofZ 4) (ofZ 2)))
        (div (ofZ 4) (ofZ 2)) = true.
Proof.
  split; [reflexivity|]. split; [reflexivity|]. split; [reflexivity|].
  pose proof (roundedRectPath_clamps_radii sampleToString (ofZ 0) (ofZ 0)
                (ofZ 10) (ofZ 4) pillRadii
                eq_refl eq_refl eq_refl eq_refl eq_refl eq_refl) as H.
  cbv zeta in H. destruct H as (_ & (_ & H) & _). exact H.
Defined.

(** ** C9: escaping *)







(** ** C10: the output does not depend on the counter *)

Section EmitterIgnoresIds.

Variable engineToString : Q -> string.
Variable cos : num -> num.
Variable sin : num -> num.

Lemma mapRender_ext (f g : SimpleNode -> RenderContext.t
                           -> Outcome (string * RenderContext.t))
      (l : list SimpleNode) :
  Forall (fun node => forall context, f node context = g (eraseIds node) context) l ->
  forall context, mapRender f l context = mapRender g (map eraseIds l) context.
Proof.
  induction 1 as [|node rest Hnode _ IH]; intros context; [reflexivity|].
  cbn [mapRender map]. rewrite Hnode.
  destruct (g (eraseIds node) context) as [[s context']|e]; [|reflexivity].
  now rewrite IH.
Qed.

Lemma renderBoxNode_ext
      (f g : list SimpleNode -> RenderContext.t
             -> Outcome (list string * RenderContext.t))
      (base : BaseNode.t) (tagName : string) (background : option Fill)
      (borderRadius : BorderRadius.t) (borders : option BorderSet.t)
      (shadows : list BoxShadow.t) (overflowHidden : bool)
      (children children' : list SimpleNode) (context : RenderContext.t) :
  (forall c, f children c = g children' c) ->
  renderBoxNode engineToString cos sin f base tagName background borderRadius
                borders shadows overflowHidden children context
  = renderBoxNode engineToString cos sin g (eraseBaseId base) tagName background
                  borderRadius borders shadows overflowHidden children' context.
Proof.
  intros H. unfold renderBoxNode.
  destruct (resolveFill engineToString cos sin background context) as [fillAttr context1].
  destruct (resolveShadows engineToString shadows context1) as [filterAttr context2].
  destruct overflowHidden.
  - change (ensureClipPath engineToString (eraseBaseId base) borderRadius context2)
      with (ensureClipPath engineToString base borderRadius context2).
    destruct (ensureClipPath engineToString base borderRadius context2) as [id context3].
    rewrite H. reflexivity.
  - rewrite H. reflexivity.
Qed.

Lemma renderNode_eraseIds (node : SimpleNode) :
  forall context,
    renderNode engineToString cos sin node context
    = renderNode engineToString cos sin (eraseIds node) context.
Proof.
  induction node as [base tagName background borderRadius borders shadows
                          overflowHidden children IH
                    | base tagName text
                    | base tagName iconName color svgPath viewBox]
    using SimpleNode_induction; intros context.
  - cbn [renderNode eraseIds].
    apply renderBoxNode_ext. intros c.
    now apply mapRender_ext.
  - reflexivity.
  - reflexivity.
Qed.

End EmitterIgnoresIds.

Lemma map_eraseIds_snoc (l l' : list SimpleNode) (n n' : SimpleNode) :
  map eraseIds l = map eraseIds l' -> eraseIds n = eraseIds n' ->
  map eraseIds (l ++ [n]) = map eraseIds (l' ++ [n']).
Proof. intros Hl Hn. rewrite !map_app. cbn [map]. now rewrite Hl, Hn. Qed.

Lemma pushLines_eraseIds (info : ElementInfo.t) (rootRect : DOMRect.t) (opacity : num)
      (payload : string -> TextPayload.t) (fontSize : num) (textAnchor : TextAnchor)
      (lineSegments : list (string * DOMRect.t)) :
  forall results1 results2 counter1 counter2,
    map eraseIds results1 = map eraseIds results2 ->
    map eraseIds (fst (pushLines info rootRect opacity payload fontSize textAnchor
                                 lineSegments results1 counter1))
    = map eraseIds (fst (pushLines info rootRect opacity payload fontSize textAnchor
                                   lineSegments results2 counter2)).
Proof.
  induction lineSegments as [|[text rect] rest IH];
    intros results1 results2 counter1 counter2 Hresults; [exact Hresults|].
  cbn [pushLines].
  destruct (negb (nonEmpty (trim text))
            || strictEq (DOMRect.width rect) (ofZ 0)
            || strictEq (DOMRect.height rect) (ofZ 0)).
  - now apply IH.
  - apply IH. now apply map_eraseIds_snoc.
Qed.

Lemma collectTextNodes_loop_eraseIds (info : ElementInfo.t) (rootRect : DOMRect.t)
      (opacity : num) (childNodes : list DomNode) :
  forall results1 results2 counter1 counter2,
    map eraseIds results1 = map eraseIds results2 ->
    map eraseIds (fst (collectTextNodes_loop info rootRect opacity childNodes
                                             results1 counter1))
    = map eraseIds (fst (collectTextNodes_loop info rootRect opacity childNodes
                                               results2 counter2)).
Proof.
  induction childNodes as [|child rest IH];
    intros results1 results2 counter1 counter2 Hresults; [exact Hresults|].
  destruct child as [info' childNodes' | fullText charRects | data];
    cbn [collectTextNodes_loop]; [now apply IH | | now apply IH].
  destruct (negb (nonEmpty (trim (collapseSpaces fullText)))); [now apply IH|].
  match goal with
  | |- context [pushLines ?i ?r ?o ?p ?f ?t ?ls results1 counter1] =>
      pose proof (pushLines_eraseIds i r o p f t ls results1 results2
                                     counter1 counter2 Hresults) as Hpush;
      destruct (pushLines i r o p f t ls results1 counter1) as [r1 k1];
      destruct (pushLines i r o p f t ls results2 counter2) as [r2 k2]
  end.
  now apply IH.
Qed.

Lemma createIconNode_eraseIds (info : ElementInfo.t) (childNodes : list DomNode)
      (rootRect : DOMRect.t) (counter1 counter2 : nat) :
  option_map eraseIds (fst (createIconNode info childNodes rootRect counter1))
  = option_map eraseIds (fst (createIconNode info childNodes rootRect counter2)).
Proof.
  unfold createIconNode.
  destruct (lookupIcon _); try reflexivity;
    destruct (strictEq (DOMRect.width (ElementInfo.rect info)) (ofZ 0)
              || strictEq (DOMRect.height (ElementInfo.rect info)) (ofZ 0));
    reflexivity.
Qed.

Lemma forEachChild_eraseIds (recur : DomNode -> nat -> option SimpleNode * nat)
      (l : list DomNode) :
  Forall (fun child => forall counter1 counter2,
              option_map eraseIds (fst (recur child counter1))
              = option_map eraseIds (fst (recur child counter2))) l ->
  forall children1 children2 counter1 counter2,
    map eraseIds children1 = map eraseIds children2 ->
    map eraseIds (fst (forEachChild recur l children1 counter1))
    = map eraseIds (fst (forEachChild recur l children2 counter2)).
Proof.
  induction 1 as [|child rest Hchild _ IH];
    intros children1 children2 counter1 counter2 Hchildren; [exact Hchildren|].
  destruct child as [childInfo childNodes | content charRects | data];
    cbn [forEachChild]; [| now apply IH | now apply IH].
  destruct (negb (ElementInfo.isHTMLElement childInfo)); [now apply IH|].
  destruct (isIgnoredTag (ElementInfo.tagName childInfo)); [now apply IH|].
  specialize (Hchild counter1 counter2).
  destruct (recur (Element childInfo childNodes) counter1) as [[n1|] k1];
    destruct (recur (Element childInfo childNodes) counter2) as [[n2|] k2];
    cbn [fst option_map] in Hchild; try discriminate.
  - apply IH. apply map_eraseIds_snoc; [exact Hchildren | congruence].
  - now apply IH.
Qed.

Lemma createNodeFromElement_eraseIds (element : DomNode) (rootRect : DOMRect.t)
      (allowHidden : bool) :
  forall counter1 counter2,
    option_map eraseIds
               (fst (createNodeFromElement element rootRect allowHidden counter1))
    = option_map eraseIds
                 (fst (createNodeFromElement element rootRect allowHidden counter2)).
Proof.
  induction element as [info childNodes IH | content charRects | data]
    using DomNode_induction; intros counter1 counter2; [|reflexivity|reflexivity].
  cbn [createNodeFromElement].
  destruct (strictEq (DOMRect.width (ElementInfo.rect info)) (ofZ 0)
            || strictEq (DOMRect.height (ElementInfo.rect info)) (ofZ 0));
    [reflexivity|].
  destruct (negb allowHidden && negb (isRenderable (ElementInfo.style info)));
    [reflexivity|].
  destruct (classListContains "material-symbols-outlined" (ElementInfo.className info));
    [apply createIconNode_eraseIds|].
  destruct (assignId info counter1) as [id1 k1].
  destruct (assignId info counter2) as [id2 k2].
  unfold collectTextNodes.
  match goal with
  | |- context [collectTextNodes_loop ?i ?r ?o ?c [] k1] =>
      pose proof (collectTextNodes_loop_eraseIds i r o c [] [] k1 k2 eq_refl) as Htexts;
      destruct (collectTextNodes_loop i r o c [] k1) as [texts1 j1];
      destruct (collectTextNodes_loop i r o c [] k2) as [texts2 j2]
  end.
  cbn [fst] in Htexts.
  pose proof (forEachChild_eraseIds
                (fun child counter =>
                   createNodeFromElement child rootRect allowHidden counter)
                childNodes IH texts1 texts2 j1 j2 Htexts) as Hchildren.
  destruct (forEachChild _ childNodes texts1 j1) as [children1 m1].
  destruct (forEachChild _ childNodes texts2 j2) as [children2 m2].
  cbn [fst] in Hchildren. cbn [fst option_map]. f_equal.
  unfold boxNodeOf. cbn [eraseIds]. now rewrite Hchildren.
Qed.

(** C10.  Two invocations of [htmlToSvg] on the same snapshot inputs and
    options yield the same outcome (the same document string, with every
    identifier in it, or the same failure) whatever value the module-level
    counter holds when each starts: the identifiers written into the
    document come from the per-call render context, and the node ids drawn
    from the counter are never written. *)
Theorem htmlToSvg_deterministic :
  forall (engineToString : Q -> string) (cos sin : num -> num)
         (rootElement : option HTMLElement) (inlineCss : option string)
         (nodeCounter1 nodeCounter2 : nat),
    fst (htmlToSvg engineToString cos sin rootElement inlineCss nodeCounter1)
    = fst (htmlToSvg engineToString cos sin rootElement inlineCss nodeCounter2).
Proof.
  intros engineToString cos sin [[info childNodes]|] inlineCss k1 k2; [|reflexivity].
  unfold htmlToSvg.
  destruct (strictEq (DOMRect.width (ElementInfo.rect info)) (ofZ 0)
            || strictEq (DOMRect.height (ElementInfo.rect info)) (ofZ 0));
    [reflexivity|].
  pose proof (createNodeFromElement_eraseIds (Element info childNodes)
                (ElementInfo.rect info) true k1 k2) as Hsnap.
  destruct (createNodeFromElement (Element info childNodes) (ElementInfo.rect info)
                                  true k1) as [[tree1|] j1];
    destruct (createNodeFromElement (Element info childNodes) (ElementInfo.rect info)
                                    true k2) as [[tree2|] j2];
    cbn [fst option_map] in Hsnap; try discriminate; [|reflexivity].
  injection Hsnap as Htree.
  rewrite (renderNode_eraseIds engineToString cos sin tree1).
  rewrite (renderNode_eraseIds engineToString cos sin tree2).
  rewrite Htree.
  destruct (renderNode engineToString cos sin (eraseIds tree2) _) as [[content context]|e];
    reflexivity.
Qed.

(** The counter does show in the intermediate tree: the same element is
    given the id [div-0] or [div-7] according to where the counter
    stands. *)
Lemma nodeCounter_shows_in_node_ids :
  fst (createNodeFromElement (Element anonymousBox []) (rectOf 0 0 100 50) true 0)
  <> fst (createNodeFromElement (Element anonymousBox []) (rectOf 0 0 100 50) true 7).
Proof. vm_compute. discriminate. Qed.

